(** * Face-recognition attendance system

    A shallow embedding of the storage layer ([database/migrations.ts],
    [database/queries.ts]) and of the HTTP handlers that drive it
    ([routes/attendance.ts], [routes/users.ts]).

    Conventions of the embedding.
    - A table is the list of its rows in rowid order; an [INSERT] appends.
    - A [DATETIME] is the number of seconds since the epoch (UTC), as both
      [CURRENT_TIMESTAMP] and [new Date().toISOString()] are UTC; a [DATE]
      is the day number [t / 86400], which stands for the text
      [YYYY-MM-DD] obtained by [toISOString().split('T')[0]].
    - One call of an exported operation reads the clock once: the value
      [now] it is given.
    - A [REAL] is a rational number; the ledger only stores and returns it.
    - [sqlite.execute] either returns or throws; a statement that throws
      leaves the database as it was.
    - The matcher itself lives in the recognition service
      ([python/face_recognition_service.py]), which the handlers run as an
      external process; module [Matcher] states it from its specification,
      over the real numbers. *)

From Stdlib Require Import List ZArith QArith Bool String Lia.
From Stdlib Require Import Permutation Sorted.
From Stdlib Require Import Reals Lra.
Import ListNotations.

Local Open Scope Z_scope.

(* ------------------------------------------------------------------ *)
(** ** Schema ([runMigrations]) *)
(* ------------------------------------------------------------------ *)

Definition DATETIME := Z.
Definition DATE := Z.

(** [new Date().toISOString().split('T')[0]] *)
Definition date_of (t : DATETIME) : DATE := t / 86400.

(** [users_v1]: [is_active] is [BOOLEAN DEFAULT 1], a nullable numeric
    column; the queries test it with [is_active = 1]. *)
Record UserRow : Type := mkUser {
  usr_id : Z;
  usr_name : string;
  usr_email : string;
  usr_face_encoding : string;
  usr_created_at : DATETIME;
  usr_is_active : option Z
}.

(** [attendance_v1] *)
Record AttendanceRow : Type := mkAttendance {
  att_id : Z;
  att_user_id : Z;
  att_check_in_time : DATETIME;
  att_check_out_time : option DATETIME;
  att_date : DATE;
  att_confidence_score : Q
}.

(** [face_samples_v1] *)
Record FaceSampleRow : Type := mkSample {
  smp_id : Z;
  smp_user_id : Z;
  smp_image_data : string;
  smp_encoding_data : string;
  smp_created_at : DATETIME
}.

(** The database: the three tables, the [AUTOINCREMENT] counters that
    [sqlite_sequence] keeps for them, and the [foreign_keys] pragma of the
    connection, which decides whether the declared [FOREIGN KEY] clauses
    are enforced (the sources never set it). *)
Record Database : Type := mkDatabase {
  foreign_keys : bool;
  users_v1 : list UserRow;
  users_seq : Z;
  attendance_v1 : list AttendanceRow;
  attendance_seq : Z;
  face_samples_v1 : list FaceSampleRow;
  face_samples_seq : Z
}.

(** The state right after [runMigrations] on a fresh store. *)
Definition runMigrations (pragma_foreign_keys : bool) : Database :=
  mkDatabase pragma_foreign_keys [] 0 [] 0 [] 0.

Definition set_users (db : Database) (rows : list UserRow) (seq : Z) :=
  mkDatabase (foreign_keys db) rows seq (attendance_v1 db)
    (attendance_seq db) (face_samples_v1 db) (face_samples_seq db).

Definition set_attendance (db : Database) (rows : list AttendanceRow)
    (seq : Z) :=
  mkDatabase (foreign_keys db) (users_v1 db) (users_seq db) rows seq
    (face_samples_v1 db) (face_samples_seq db).

Definition set_face_samples (db : Database) (rows : list FaceSampleRow)
    (seq : Z) :=
  mkDatabase (foreign_keys db) (users_v1 db) (users_seq db)
    (attendance_v1 db) (attendance_seq db) rows seq.

(** [INTEGER PRIMARY KEY AUTOINCREMENT]: one more than the largest rowid
    the table has ever held. *)
Definition next_rowid (seq : Z) (ids : list Z) : Z :=
  Z.max seq (fold_right Z.max 0 ids) + 1.

(* ------------------------------------------------------------------ *)
(** ** [sqlite.execute]: statements that return or throw *)
(* ------------------------------------------------------------------ *)

Inductive SqlError : Type :=
| SQLITE_CONSTRAINT_UNIQUE
| SQLITE_CONSTRAINT_FOREIGNKEY
| SQLITE_CONSTRAINT_NOTNULL.

Inductive Outcome (A : Type) : Type :=
| Returned (a : A)
| Thrown (e : SqlError).
Arguments Returned {A} a.
Arguments Thrown {A} e.

(** An [async] database operation: it runs on the current database and
    leaves a new one, returning a value or throwing. *)
Definition Sql (A : Type) : Type := Database -> Outcome A * Database.

Definition ret {A} (a : A) : Sql A := fun db => (Returned a, db).

Definition throw {A} (e : SqlError) : Sql A := fun db => (Thrown e, db).

Definition bind {A B} (m : Sql A) (k : A -> Sql B) : Sql B :=
  fun db =>
    match m db with
    | (Returned a, db') => k a db'
    | (Thrown e, db') => (Thrown e, db')
    end.

(** [try { m } catch (error) { h }] *)
Definition try_catch {A} (m : Sql A) (h : SqlError -> Sql A) : Sql A :=
  fun db =>
    match m db with
    | (Returned a, db') => (Returned a, db')
    | (Thrown e, db') => h e db'
    end.

Declare Scope sql_scope.
Delimit Scope sql_scope with sql.
Notation "x <- m ;; k" := (bind m (fun x => k))
  (at level 61, m at next level, right associativity) : sql_scope.
Notation "m ;;; k" := (bind m (fun _ => k))
  (at level 61, right associativity) : sql_scope.

(** The database an operation leaves, and the value it returns. *)
Definition exec {A} (m : Sql A) (db : Database) : Database := snd (m db).
Definition result {A} (m : Sql A) (db : Database) : Outcome A := fst (m db).

(* ------------------------------------------------------------------ *)
(** ** Attendance statements *)
(* ------------------------------------------------------------------ *)

(** [WHERE user_id = ? AND date = ?] *)
Definition same_user_date (userId : Z) (day : DATE) (r : AttendanceRow)
    : bool :=
  (att_user_id r =? userId) && (att_date r =? day).

Definition user_known (db : Database) (userId : Z) : bool :=
  existsb (fun u => usr_id u =? userId) (users_v1 db).

(** [INSERT INTO attendance_v1 (user_id, date, confidence_score)
    VALUES (?, ?, ?)]: [check_in_time] takes its default
    [CURRENT_TIMESTAMP], [check_out_time] is [NULL]. The statement throws
    when [UNIQUE(user_id, date)] is violated and, when foreign keys are
    enforced, when [user_id] names no row of [users_v1]. *)
Definition insert_attendance (userId : Z) (day : DATE) (confidenceScore : Q)
    (now : DATETIME) : Sql unit :=
  fun db =>
    if existsb (same_user_date userId day) (attendance_v1 db) then
      (Thrown SQLITE_CONSTRAINT_UNIQUE, db)
    else if foreign_keys db && negb (user_known db userId) then
      (Thrown SQLITE_CONSTRAINT_FOREIGNKEY, db)
    else
      let id := next_rowid (attendance_seq db)
                  (map att_id (attendance_v1 db)) in
      (Returned tt,
       set_attendance db
         (attendance_v1 db ++
            [mkAttendance id userId now None day confidenceScore])
         id).

(** [UPDATE attendance_v1 SET ... WHERE ...]: every row that satisfies
    [cond] is replaced by [set] of it, the others are kept. *)
Definition update_attendance (cond : AttendanceRow -> bool)
    (set : AttendanceRow -> AttendanceRow) : Sql unit :=
  fun db =>
    (Returned tt,
     set_attendance db
       (map (fun r => if cond r then set r else r) (attendance_v1 db))
       (attendance_seq db)).

(** [SET check_in_time = CURRENT_TIMESTAMP, confidence_score = ?] *)
Definition set_check_in (now : DATETIME) (confidenceScore : Q)
    (r : AttendanceRow) : AttendanceRow :=
  mkAttendance (att_id r) (att_user_id r) now (att_check_out_time r)
    (att_date r) confidenceScore.

(** [SET check_out_time = CURRENT_TIMESTAMP] *)
Definition set_check_out (now : DATETIME) (r : AttendanceRow)
    : AttendanceRow :=
  mkAttendance (att_id r) (att_user_id r) (att_check_in_time r) (Some now)
    (att_date r) (att_confidence_score r).

(** [check_out_time IS NULL] *)
Definition is_null {A} (o : option A) : bool :=
  match o with None => true | Some _ => false end.

(** [recordCheckIn]: try the insert; if it throws, update the row of
    today. *)
Definition recordCheckIn (userId : Z) (confidenceScore : Q)
    (now : DATETIME) : Sql unit :=
  let today := date_of now in
  try_catch
    (insert_attendance userId today confidenceScore now)
    (fun _error =>
       update_attendance (same_user_date userId today)
         (set_check_in now confidenceScore)).

(** [recordCheckOut] *)
Definition recordCheckOut (userId : Z) (now : DATETIME) : Sql unit :=
  let today := date_of now in
  update_attendance
    (fun r => same_user_date userId today r && is_null (att_check_out_time r))
    (set_check_out now).

(* ------------------------------------------------------------------ *)
(** ** User and face-sample statements *)
(* ------------------------------------------------------------------ *)

(** [is_active = 1] *)
Definition is_active (u : UserRow) : bool :=
  match usr_is_active u with
  | Some v => v =? 1
  | None => false
  end.

(** What [sqlite.execute] resolves to after an [INSERT]: the id of the
    new row is under the key [lastInsertRowid]. *)
Record ResultSet : Type := mkResultSet {
  lastInsertRowid : Z
}.

(** [result.lastInsertRowId]: the result set has no key of that name
    (its key is [lastInsertRowid]), so the property is missing and the
    expression is [undefined], here [None], whatever the result set. *)
Definition lastInsertRowId (result : ResultSet) : option Z := None.

(** [createUser]: [INSERT INTO users_v1 (name, email, face_encoding)];
    [created_at] and [is_active] take their defaults. The statement throws
    when [email UNIQUE] is violated. Returns [result.lastInsertRowId]. *)
Definition createUser (name email faceEncoding : string) (now : DATETIME)
    : Sql (option Z) :=
  fun db =>
    if existsb (fun u => String.eqb (usr_email u) email) (users_v1 db) then
      (Thrown SQLITE_CONSTRAINT_UNIQUE, db)
    else
      let id := next_rowid (users_seq db) (map usr_id (users_v1 db)) in
      (Returned (lastInsertRowId (mkResultSet id)),
       set_users db
         (users_v1 db ++ [mkUser id name email faceEncoding now (Some 1)])
         id).

(** [getUserById]: [rows.length > 0 ? rows[0] : null] *)
Definition getUserById (id : Z) (db : Database) : option UserRow :=
  hd_error (filter (fun u => (usr_id u =? id) && is_active u) (users_v1 db)).

(** [getUserByEmail] *)
Definition getUserByEmail (email : string) (db : Database) : option UserRow :=
  hd_error
    (filter (fun u => String.eqb (usr_email u) email && is_active u)
       (users_v1 db)).

(** [ORDER BY]: a stable insertion sort by the given order. *)
Fixpoint insert_by {A} (le : A -> A -> bool) (x : A) (l : list A) : list A :=
  match l with
  | [] => [x]
  | y :: l' => if le x y then x :: l else y :: insert_by le x l'
  end.

Fixpoint order_by {A} (le : A -> A -> bool) (l : list A) : list A :=
  match l with
  | [] => []
  | x :: l' => insert_by le x (order_by le l')
  end.

(** The columns [id, name, email, created_at, is_active] that
    [getAllUsers] selects. *)
Record UserListing : Type := mkListing {
  lst_id : Z;
  lst_name : string;
  lst_email : string;
  lst_created_at : DATETIME;
  lst_is_active : option Z
}.

Definition listing_of (u : UserRow) : UserListing :=
  mkListing (usr_id u) (usr_name u) (usr_email u) (usr_created_at u)
    (usr_is_active u).

(** [getAllUsers]: [WHERE is_active = 1 ORDER BY name] *)
Definition getAllUsers (db : Database) : list UserListing :=
  map listing_of
    (order_by (fun u v => String.leb (usr_name u) (usr_name v))
       (filter is_active (users_v1 db))).

(** The columns [id, name, face_encoding] of [getAllUserEncodings]. *)
Record KnownFace : Type := mkKnownFace {
  kf_id : Z;
  kf_name : string;
  kf_face_encoding : string
}.

Definition known_face_of (u : UserRow) : KnownFace :=
  mkKnownFace (usr_id u) (usr_name u) (usr_face_encoding u).

(** [getAllUserEncodings]: [WHERE is_active = 1] *)
Definition getAllUserEncodings (db : Database) : list KnownFace :=
  map known_face_of (filter is_active (users_v1 db)).

(** [addFaceSample]: throws only when foreign keys are enforced and
    [user_id] names no user. *)
Definition addFaceSample (userId : Z) (imageData encodingData : string)
    (now : DATETIME) : Sql unit :=
  fun db =>
    if foreign_keys db && negb (user_known db userId) then
      (Thrown SQLITE_CONSTRAINT_FOREIGNKEY, db)
    else
      let id := next_rowid (face_samples_seq db)
                  (map smp_id (face_samples_v1 db)) in
      (Returned tt,
       set_face_samples db
         (face_samples_v1 db ++
            [mkSample id userId imageData encodingData now])
         id).

(** [addFaceSample] called with a value that may be [undefined]: it is
    bound as [NULL] to [user_id INTEGER NOT NULL], so the insert throws
    and stores nothing. *)
Definition addFaceSample_with (userId : option Z)
    (imageData encodingData : string) (now : DATETIME) : Sql unit :=
  match userId with
  | Some id => addFaceSample id imageData encodingData now
  | None => throw SQLITE_CONSTRAINT_NOTNULL
  end.

(** [getFaceSamples] *)
Definition getFaceSamples (userId : Z) (db : Database) : list string :=
  map smp_encoding_data
    (filter (fun s => smp_user_id s =? userId) (face_samples_v1 db)).

(* ------------------------------------------------------------------ *)
(** ** Attendance views and statistics *)
(* ------------------------------------------------------------------ *)

(** [AttendanceRecord] of [shared/types.ts]: a row of [attendance_v1]
    with the [user_name] of the joined user. *)
Record AttendanceRecord : Type := mkRecord {
  id : Z;
  user_id : Z;
  user_name : string;
  check_in_time : DATETIME;
  check_out_time : option DATETIME;
  date : DATE;
  confidence_score : Q
}.

Definition joined (a : AttendanceRow) (u : UserRow) : AttendanceRecord :=
  mkRecord (att_id a) (att_user_id a) (usr_name u) (att_check_in_time a)
    (att_check_out_time a) (att_date a) (att_confidence_score a).

(** [FROM attendance_v1 a JOIN users_v1 u ON a.user_id = u.id WHERE cond]:
    an inner join, one result per pair of matching rows. *)
Definition join_users (cond : AttendanceRow -> bool) (db : Database)
    : list AttendanceRecord :=
  flat_map
    (fun a =>
       map (joined a)
         (filter (fun u => att_user_id a =? usr_id u) (users_v1 db)))
    (filter cond (attendance_v1 db)).

(** [ORDER BY a.check_in_time DESC] *)
Definition check_in_desc (r s : AttendanceRecord) : bool :=
  check_in_time s <=? check_in_time r.

(** [getTodayAttendance] *)
Definition getTodayAttendance (now : DATETIME) (db : Database)
    : list AttendanceRecord :=
  let today := date_of now in
  order_by check_in_desc (join_users (fun a => att_date a =? today) db).

(** [ORDER BY a.date DESC, a.check_in_time DESC] *)
Definition date_check_in_desc (r s : AttendanceRecord) : bool :=
  (date s <? date r) || ((date s =? date r) && check_in_desc r s).

(** [getAttendanceByDateRange]: [WHERE a.date BETWEEN ? AND ?] *)
Definition getAttendanceByDateRange (startDate endDate : DATE)
    (db : Database) : list AttendanceRecord :=
  order_by date_check_in_desc
    (join_users
       (fun a => (startDate <=? att_date a) && (att_date a <=? endDate)) db).

(** [getUserAttendance]: [WHERE a.user_id = ? ... LIMIT ?]; a negative
    limit means no limit. *)
Definition getUserAttendance (userId : Z) (limit : Z) (db : Database)
    : list AttendanceRecord :=
  let rows :=
    order_by date_check_in_desc
      (join_users (fun a => att_user_id a =? userId) db) in
  if limit <? 0 then rows else firstn (Z.to_nat limit) rows.

(** [AttendanceStats] of [shared/types.ts] *)
Record AttendanceStats : Type := mkStats {
  total_users : nat;
  present_today : nat;
  total_checkins_today : nat;
  recent_checkins : list AttendanceRecord
}.

(** [COUNT(DISTINCT user_id)] *)
Definition count_distinct (l : list Z) : nat :=
  List.length (nodup Z.eq_dec l).

(** [getAttendanceStats] *)
Definition getAttendanceStats (now : DATETIME) (db : Database)
    : AttendanceStats :=
  let today := date_of now in
  let totalUsers := List.length (filter is_active (users_v1 db)) in
  let presentToday :=
    count_distinct
      (map att_user_id
         (filter (fun a => att_date a =? today) (attendance_v1 db))) in
  let totalCheckinsToday :=
    List.length
      (filter (fun a => att_date a =? today) (attendance_v1 db)) in
  let recentCheckins := getTodayAttendance now db in
  mkStats totalUsers presentToday totalCheckinsToday
    (firstn 10 recentCheckins).

(* ------------------------------------------------------------------ *)
(** ** HTTP handlers ([routes/attendance.ts], [routes/users.ts]) *)
(* ------------------------------------------------------------------ *)

(** [FaceRecognitionResult] of [shared/types.ts], as the recognition
    service prints it. *)
Record FaceRecognitionResult : Type := mkRecognition {
  fr_success : bool;
  fr_user_id : option Z;
  fr_user_name : option string;
  fr_confidence : Q;
  fr_message : string
}.

(** What the encoding command of the service prints. *)
Record EncodeResult : Type := mkEncode {
  enc_success : bool;
  enc_encoding : string;
  enc_message : option string
}.

(** One run of [python3 face_recognition_service.py ...]: the process
    exits with a non-zero code, or the handler throws while running it or
    parsing its output, or the output parses. *)
Inductive ProcessOutput (A : Type) : Type :=
| ExitNonZero
| Throws
| Stdout (a : A).
Arguments ExitNonZero {A}.
Arguments Throws {A}.
Arguments Stdout {A} a.

(** The JSON bodies the handlers send. *)
Inductive Body : Type :=
| Message (success : bool) (message : string)
| Recognition (r : FaceRecognitionResult)
| Recorded (userId : Z) (userName : option string) (confidence : Q)
    (message : string) (timestamp : DATETIME)
| Registered (message : string) (userId : option Z).

Record Response : Type := json {
  status : Z;
  body : Body
}.

Definition Handler : Type := Database -> Response * Database.

(** The outer [try { ... } catch (error) { return c.json(..., 500) }] of
    a handler. *)
Definition handle (m : Sql Response) (on_error : Response) : Handler :=
  fun db =>
    match m db with
    | (Returned r, db') => (r, db')
    | (Thrown _, db') => (on_error, db')
    end.

(** A read-only query: it returns and leaves the database as it is. *)
Definition query {A} (f : Database -> A) : Sql A :=
  fun db => (Returned (f db), db).

(** JavaScript truthiness of a string and of an optional id. *)
Definition truthy (s : string) : bool := negb (String.eqb s "").

Definition truthy_id (o : option Z) : option Z :=
  match o with
  | Some n => if n =? 0 then None else Some n
  | None => None
  end.

(** A template literal prints a missing name as [undefined]. *)
Definition show_name (o : option string) : string :=
  match o with Some s => s | None => "undefined" end.

Record RegistrationData : Type := mkRegistration {
  name : string;
  email : string;
  face_images : list string
}.

Section Handlers.

(** The recognition service, called with the captured image and the
    known faces, and its encoding command. *)
Variable recognize : string -> list KnownFace ->
                     ProcessOutput FaceRecognitionResult.
Variable encode : string -> ProcessOutput EncodeResult.

(** [attendance.post("/checkin")] *)
Definition checkin (image_data : string) (now : DATETIME) : Handler :=
  handle
    (if negb (truthy image_data) then
       ret (json 400 (Message false "Image data is required"))
     else
       knownFaces <- query getAllUserEncodings ;;
       if (List.length knownFaces =? 0)%nat then
         ret (json 400
                (Message false "No registered users found in the system"))
       else
         match recognize image_data knownFaces with
         | ExitNonZero =>
             ret (json 500 (Message false "Face recognition service error"))
         | Throws =>
             ret (json 500 (Message false "Failed to process check-in"))
         | Stdout recognitionResult =>
             if negb (fr_success recognitionResult) then
               ret (json 200 (Recognition recognitionResult))
             else
               match truthy_id (fr_user_id recognitionResult) with
               | Some userId =>
                   recordCheckIn userId
                     (fr_confidence recognitionResult) now ;;;
                   ret (json 200
                          (Recorded userId
                             (fr_user_name recognitionResult)
                             (fr_confidence recognitionResult)
                             ("Welcome " ++
                              show_name (fr_user_name recognitionResult) ++
                              "! Attendance recorded.")
                             now))
               | None => ret (json 200 (Recognition recognitionResult))
               end
         end)%sql
    (json 500 (Message false "Failed to process check-in")).

(** [attendance.post("/checkout")] *)
Definition checkout (image_data : string) (now : DATETIME) : Handler :=
  handle
    (if negb (truthy image_data) then
       ret (json 400 (Message false "Image data is required"))
     else
       knownFaces <- query getAllUserEncodings ;;
       if (List.length knownFaces =? 0)%nat then
         ret (json 400
                (Message false "No registered users found in the system"))
       else
         match recognize image_data knownFaces with
         | ExitNonZero =>
             ret (json 500 (Message false "Face recognition service error"))
         | Throws =>
             ret (json 500 (Message false "Failed to process check-out"))
         | Stdout recognitionResult =>
             if negb (fr_success recognitionResult) then
               ret (json 200 (Recognition recognitionResult))
             else
               match truthy_id (fr_user_id recognitionResult) with
               | Some userId =>
                   recordCheckOut userId now ;;;
                   ret (json 200
                          (Recorded userId
                             (fr_user_name recognitionResult)
                             (fr_confidence recognitionResult)
                             ("Goodbye " ++
                              show_name (fr_user_name recognitionResult) ++
                              "! Check-out recorded.")
                             now))
               | None => ret (json 200 (Recognition recognitionResult))
               end
         end)%sql
    (json 500 (Message false "Failed to process check-out")).

(** The loop of [/register] over [face_images]: the first image the
    service cannot encode ends the request with its response. *)
Fixpoint encode_images (images : list string) : Response + list string :=
  match images with
  | [] => inr []
  | imageData :: rest =>
      match encode imageData with
      | ExitNonZero =>
          inl (json 500 (Message false "Failed to process face image"))
      | Throws =>
          inl (json 500 (Message false "Error processing face image"))
      | Stdout r =>
          if negb (enc_success r) then
            inl (json 400
                   (Message false
                      (match enc_message r with
                       | Some m =>
                           if truthy m then m
                           else "Failed to extract face encoding"
                       | None => "Failed to extract face encoding"
                       end)))
          else
            match encode_images rest with
            | inl response => inl response
            | inr encodings => inr (enc_encoding r :: encodings)
            end
      end
  end.

(** [for (i ...) await db.addFaceSample(userId, face_images[i],
    faceEncodings[i])], with the value that [createUser] returned. *)
Fixpoint add_face_samples (userId : option Z)
    (samples : list (string * string)) (now : DATETIME) : Sql unit :=
  match samples with
  | [] => ret tt
  | (imageData, encodingData) :: rest =>
      (addFaceSample_with userId imageData encodingData now ;;;
       add_face_samples userId rest now)%sql
  end.

(** [users.post("/register")] *)
Definition register (data : RegistrationData) (now : DATETIME) : Handler :=
  handle
    (if negb (truthy (name data)) || negb (truthy (email data))
        || (List.length (face_images data) =? 0)%nat then
       ret (json 400
              (Message false
                 "Name, email, and at least one face image are required"))
     else
       existingUser <- query (getUserByEmail (email data)) ;;
       match existingUser with
       | Some _ =>
           ret (json 409
                  (Message false "User with this email already exists"))
       | None =>
           match encode_images (face_images data) with
           | inl response => ret response
           | inr faceEncodings =>
               match faceEncodings with
               | [] =>
                   ret (json 400
                          (Message false
                             "No valid face encodings could be extracted"))
               | primaryEncoding :: _ =>
                   userId <- createUser (name data) (email data)
                               primaryEncoding now ;;
                   add_face_samples userId
                     (combine (face_images data) faceEncodings) now ;;;
                   ret (json 200
                          (Registered "User registered successfully"
                             userId))
               end
           end
       end)%sql
    (json 500 (Message false "Failed to register user")).

(** [users.delete("/:id")]: [None] stands for an id that [parseInt]
    turns into [NaN]. Nothing is deleted or deactivated. *)
Definition delete_user (id : option Z) : Handler :=
  fun db =>
    match id with
    | None => (json 400 (Message false "Invalid user ID"), db)
    | Some _ =>
        (json 200 (Message true "User deletion not implemented yet"), db)
    end.

End Handlers.

(* ------------------------------------------------------------------ *)
(** ** The face matcher *)
(* ------------------------------------------------------------------ *)

Module Matcher.

Local Open Scope R_scope.

Definition Vector : Type := list R.

Inductive MatchError : Type :=
| NoEnrolledUsers
| InvalidEncoding.

Record MatchResult : Type := mkMatch {
  matched : bool;
  userId : option Z;
  distance : R;
  confidence : R
}.

(** Modelled from the spec: the Euclidean distance of the matcher, which
    is part of [python/face_recognition_service.py]. *)
Definition euclidean (p q : Vector) : R :=
  sqrt (fold_right Rplus 0 (map (fun ab => (fst ab - snd ab) ^ 2)
                              (combine p q))).

(** Modelled from the spec: [clamp01] of the confidence formula of
    [python/face_recognition_service.py]. *)
Definition clamp01 (x : R) : R := Rmax 0 (Rmin 1 x).

(** Modelled from the spec: the confidence formula
    [clamp01(1 - distance / tolerance) * 100] of
    [python/face_recognition_service.py]. *)
Definition confidence_of (d tolerance : R) : R :=
  clamp01 (1 - d / tolerance) * 100.

(** Modelled from the spec: the selection rule of
    [python/face_recognition_service.py], minimum distance with ties
    broken by the lowest user id. *)
Definition closer (a b : Z * R) : bool :=
  if Rlt_dec (snd a) (snd b) then true
  else if Rlt_dec (snd b) (snd a) then false
  else (fst a <=? fst b)%Z.

Fixpoint closest (best : Z * R) (rest : list (Z * R)) : Z * R :=
  match rest with
  | [] => best
  | c :: rest' => closest (if closer best c then best else c) rest'
  end.

(** Modelled from the spec: [matchFace] of
    [python/face_recognition_service.py]. An empty candidate list fails
    with [NoEnrolledUsers]; a candidate whose dimension differs from the
    probe's fails with [InvalidEncoding] before any distance is taken;
    otherwise the closest candidate is a match when its distance does
    not exceed the tolerance. *)
Definition matchFace (probe : Vector) (candidates : list (Z * Vector))
    (tolerance : R) : MatchError + MatchResult :=
  match candidates with
  | [] => inl NoEnrolledUsers
  | (u0, v0) :: others =>
      if forallb (fun c => (List.length (snd c) =? List.length probe)%nat)
           candidates
      then
        let best :=
          closest (u0, euclidean probe v0)
            (map (fun c => (fst c, euclidean probe (snd c))) others) in
        if Rle_dec (snd best) tolerance then
          inr (mkMatch true (Some (fst best)) (snd best)
                 (confidence_of (snd best) tolerance))
        else
          inr (mkMatch false None (snd best)
                 (confidence_of (snd best) tolerance))
      else inl InvalidEncoding
  end.

End Matcher.

(* ------------------------------------------------------------------ *)
(** ** Constraints of the schema, and runs of the ledger *)
(* ------------------------------------------------------------------ *)

Definition attendance_key (r : AttendanceRow) : Z * DATE :=
  (att_user_id r, att_date r).

(** [UNIQUE(user_id, date)] of [attendance_v1] *)
Definition unique_user_date (db : Database) : Prop :=
  NoDup (map attendance_key (attendance_v1 db)).

(** [id INTEGER PRIMARY KEY] of [users_v1] *)
Definition users_primary_key (db : Database) : Prop :=
  NoDup (map usr_id (users_v1 db)).

(** [email TEXT UNIQUE] of [users_v1] *)
Definition email_unique (db : Database) : Prop :=
  NoDup (map usr_email (users_v1 db)).

(** [FOREIGN KEY (user_id) REFERENCES users_v1 (id)] of [attendance_v1] *)
Definition attendance_references_users (db : Database) : Prop :=
  forall a, In a (attendance_v1 db) -> user_known db (att_user_id a) = true.

(** Email is unique among the active users. *)
Definition active_email_unique (db : Database) : Prop :=
  NoDup (map usr_email (filter is_active (users_v1 db))).

(** The rows of the ledger for one user and one day. *)
Definition rows_of (userId : Z) (day : DATE) (db : Database)
    : list AttendanceRow :=
  filter (same_user_date userId day) (attendance_v1 db).

(** A sequence of [recordCheckIn] calls for one user, each with the time
    it runs at and the confidence it is given. *)
Definition recordCheckIns (userId : Z) (calls : list (DATETIME * Q))
    (db : Database) : Database :=
  fold_left (fun d call => exec (recordCheckIn userId (snd call) (fst call)) d)
    calls db.

(** Calls of the ledger, and runs of them. *)
Inductive LedgerCall : Type :=
| CheckIn (userId : Z) (confidenceScore : Q)
| CheckOut (userId : Z).

Definition ledger_call (c : LedgerCall) (now : DATETIME) : Sql unit :=
  match c with
  | CheckIn userId confidenceScore => recordCheckIn userId confidenceScore now
  | CheckOut userId => recordCheckOut userId now
  end.

Definition ledger_run (calls : list (LedgerCall * DATETIME)) (db : Database)
    : Database :=
  fold_left (fun d call => exec (ledger_call (fst call) (snd call)) d)
    calls db.

(** The row of today of [userId] already has a check-out time. *)
Definition checked_out_today (userId : Z) (now : DATETIME) (db : Database)
    : bool :=
  existsb
    (fun r => same_user_date userId (date_of now) r
              && negb (is_null (att_check_out_time r)))
    (attendance_v1 db).

(** Ledgers reached from an empty ledger by calls whose clock never goes
    back and in which no check-in is recorded for a user who has already
    checked out that day; the index is the time of the last call. *)
Inductive reached_without_recheckin : DATETIME -> Database -> Prop :=
| reached_start : forall t db,
    attendance_v1 db = [] ->
    reached_without_recheckin t db
| reached_check_in : forall t db userId confidenceScore now,
    reached_without_recheckin t db ->
    t <= now ->
    checked_out_today userId now db = false ->
    reached_without_recheckin now
      (exec (recordCheckIn userId confidenceScore now) db)
| reached_check_out : forall t db userId now,
    reached_without_recheckin t db ->
    t <= now ->
    reached_without_recheckin now (exec (recordCheckOut userId now) db).

(** The row of [attendance_v1] behind a record of a view. *)
Definition row_of (r : AttendanceRecord) : AttendanceRow :=
  mkAttendance (id r) (user_id r) (check_in_time r) (check_out_time r)
    (date r) (confidence_score r).

(** A registration request passes the input validation of [/register]. *)
Definition well_formed (data : RegistrationData) : Prop :=
  name data <> ""%string /\ email data <> ""%string /\ face_images data <> [].

(* ------------------------------------------------------------------ *)
(** ** The other routes, the pages, and the service as a whole *)
(* ------------------------------------------------------------------ *)

(** The body of [users.get("/:id")]: the user without its
    [face_encoding], or a message. *)
Inductive UserBody : Type :=
| UserFound (user : UserListing)
| UserMessage (message : string).

(** [users.get("/:id")]: [None] stands for an id that [parseInt] turns
    into [NaN]. *)
Definition get_user (id : option Z) (db : Database) : Z * UserBody :=
  match id with
  | None => (400, UserMessage "Invalid user ID")
  | Some i =>
      match getUserById i db with
      | None => (404, UserMessage "User not found")
      | Some user => (200, UserFound (listing_of user))
      end
  end.

(** [updateStats] of the page script: [stats.recent_checkins?.[0]], the
    record behind the "last check-in" field. *)
Definition lastCheckin (stats : AttendanceStats) : option AttendanceRecord :=
  hd_error (recent_checkins stats).

(** The status panel of [App.tsx]: [stats.recent_checkins.slice(0, 3)]. *)
Definition recent_activity (stats : AttendanceStats)
    : list AttendanceRecord :=
  firstn 3 (recent_checkins stats).

(** A request that can change the store, with what the recognition
    service answers while it is served. *)
Inductive Request : Type :=
| PostCheckin (recognize : string -> list KnownFace ->
                           ProcessOutput FaceRecognitionResult)
    (image_data : string)
| PostCheckout (recognize : string -> list KnownFace ->
                            ProcessOutput FaceRecognitionResult)
    (image_data : string)
| PostRegister (encode : string -> ProcessOutput EncodeResult)
    (data : RegistrationData)
| DeleteUser (id : option Z).

Definition serve (request : Request) (now : DATETIME) : Handler :=
  match request with
  | PostCheckin recognize image_data => checkin recognize image_data now
  | PostCheckout recognize image_data => checkout recognize image_data now
  | PostRegister encode data => register encode data now
  | DeleteUser id => delete_user id
  end.

(** The store after a sequence of requests, each served at its time. *)
Definition serve_all (requests : list (Request * DATETIME)) (db : Database)
    : Database :=
  fold_left (fun d r => snd (serve (fst r) (snd r) d)) requests db.

(** What identifies an attendance row: its id, its user and its date. *)
Definition attendance_identity (r : AttendanceRow) : Z * Z * DATE :=
  (att_id r, att_user_id r, att_date r).

(** [FOREIGN KEY (user_id) REFERENCES users_v1 (id)] of
    [face_samples_v1] *)
Definition samples_reference_users (db : Database) : Prop :=
  forall s, In s (face_samples_v1 db) -> user_known db (smp_user_id s) = true.

(** What a face sample stores besides its id and its time. *)
Definition sample_content (s : FaceSampleRow) : Z * string * string :=
  (smp_user_id s, smp_image_data s, smp_encoding_data s).

(* ------------------------------------------------------------------ *)
(** ** Sample data *)
(* ------------------------------------------------------------------ *)

(** A store with foreign keys enforced in which one user is enrolled;
    the user gets id 1. *)
Definition one_user : Database :=
  exec (createUser "Alice" "alice@example.com" "[0,0,0]" 0)
    (runMigrations true).

(** User 1 has checked in at 100 and out at 200 on day 0. *)
Definition checked_out : Database :=
  ledger_run [(CheckIn 1 (90 # 1), 100); (CheckOut 1, 200)] one_user.

(** Day 0 of user 1: a check-in at 100, a check-out at 200 and a second
    check-in at 300. *)
Definition in_out_in : list (LedgerCall * DATETIME) :=
  [(CheckIn 1 (90 # 1), 100); (CheckOut 1, 200); (CheckIn 1 (95 # 1), 300)].

(** Twelve users enrolled with foreign keys enforced; user [i] checks in
    at time [100 + i] of day 0. *)
Definition twelve_names : list string :=
  ["a"; "b"; "c"; "d"; "e"; "f"; "g"; "h"; "i"; "j"; "k"; "l"]%string.

Definition twelve_present : Database :=
  fold_left
    (fun db nm =>
       let db' := exec (createUser nm nm "[]" 0) db in
       exec (recordCheckIn (users_seq db') (90 # 1) (100 + users_seq db')) db')
    twelve_names (runMigrations true).

(** The row of user [userId] marked inactive by hand: no operation of the
    sources writes [is_active]. *)
Definition deactivated (userId : Z) (db : Database) : Database :=
  set_users db
    (map (fun u =>
            if usr_id u =? userId then
              mkUser (usr_id u) (usr_name u) (usr_email u)
                (usr_face_encoding u) (usr_created_at u) (Some 0)
            else u)
       (users_v1 db))
    (users_seq db).


(** A recognition service that is never reached, and an encoding command
    that encodes every image. *)
Definition no_recognition (_ : string) (_ : list KnownFace)
    : ProcessOutput FaceRecognitionResult := ExitNonZero.

Definition encode_any (_ : string) : ProcessOutput EncodeResult :=
  Stdout (mkEncode true "[0,0,0]" None).

(** A request with the email of the enrolled user and no name. *)
Definition nameless_duplicate : RegistrationData :=
  mkRegistration "" "alice@example.com" ["image"%string].

(** A complete request with the email of the enrolled user. *)
Definition duplicate : RegistrationData :=
  mkRegistration "Alice B" "alice@example.com" ["image"%string].

(** A store without foreign-key enforcement in which Alice, user 1,
    checks in at 100 and the id 9, which names no user, at 200. *)
Definition with_unknown_user : Database :=
  ledger_run [(CheckIn 1 (90 # 1), 100); (CheckIn 9 (92 # 1), 200)]
    (exec (createUser "Alice" "alice@example.com" "[0,0,0]" 0)
       (runMigrations false)).

(** A recognition service that recognises user 1 with confidence 92. *)
Definition recognize_alice (_ : string) (_ : list KnownFace)
    : ProcessOutput FaceRecognitionResult :=
  Stdout (mkRecognition true (Some 1) (Some "Alice"%string) (92 # 1)
            "Face recognized"%string).

(** A complete request of a new user with two images. *)
Definition bob : RegistrationData :=
  mkRegistration "Bob" "bob@example.com" ["p"; "q"]%string.

(** The one user of [one_user], deactivated by hand. *)
Definition alice_deactivated : Database := deactivated 1 one_user.

(* ------------------------------------------------------------------ *)
(** ** Lists, keys and sorting *)
(* ------------------------------------------------------------------ *)

Lemma same_user_date_key (userId : Z) (day : DATE) (r : AttendanceRow) :
  same_user_date userId day r = true <-> attendance_key r = (userId, day).
Proof.
  unfold same_user_date, attendance_key.
  rewrite andb_true_iff, !Z.eqb_eq.
  split.
  - intros [-> ->]; reflexivity.
  - intros H; injection H; auto.
Qed.

Lemma filter_all_true {A} (f : A -> bool) (l : list A) :
  (forall x, In x l -> f x = true) -> filter f l = l.
Proof.
  induction l as [|x l IH]; simpl; intros H; [reflexivity|].
  rewrite (H x (or_introl eq_refl)). f_equal.
  apply IH. intros y Hy. apply H. now right.
Qed.

Lemma filter_absent {A} (f : A -> bool) (l : list A) :
  existsb f l = false -> filter f l = [].
Proof.
  induction l as [|x l IH]; simpl; [reflexivity|].
  destruct (f x); simpl; [discriminate|exact IH].
Qed.

(** A filter that selects one key of a list without duplicate keys
    selects at most one element. *)
Lemma filter_unique_key {A K} (key : A -> K) (f : A -> bool) (k : K)
    (l : list A) :
  (forall x, f x = true <-> key x = k) ->
  NoDup (map key l) ->
  existsb f l = true ->
  exists x, filter f l = [x].
Proof.
  intros Hf.
  induction l as [|a l IH]; simpl; [discriminate|].
  intros Hnd Hex.
  inversion Hnd as [|k' ks Hnotin Hnd']; subst.
  destruct (f a) eqn:Ha.
  - exists a. f_equal.
    apply filter_absent.
    destruct (existsb f l) eqn:Hrest; [|reflexivity].
    exfalso. apply Hnotin.
    apply existsb_exists in Hrest as [b [Hb Hkey]].
    apply Hf in Hkey. apply Hf in Ha.
    rewrite Ha, <- Hkey. now apply in_map.
  - simpl in Hex. now apply IH.
Qed.

Lemma unique_key_one_row (rows : list AttendanceRow) (userId : Z)
    (day : DATE) :
  NoDup (map attendance_key rows) ->
  existsb (same_user_date userId day) rows = true ->
  exists r, filter (same_user_date userId day) rows = [r].
Proof.
  apply (filter_unique_key attendance_key _ (userId, day)).
  intros r. apply same_user_date_key.
Qed.

Lemma filter_map_update {A} (f : A -> bool) (g : A -> A) (l : list A) :
  (forall x, f (g x) = f x) ->
  forall cond : A -> bool,
    (forall x, cond x = true -> f x = true) ->
    filter f (map (fun x => if cond x then g x else x) l)
    = map (fun x => if cond x then g x else x) (filter f l).
Proof.
  intros Hg cond Hc.
  induction l as [|x l IH]; simpl; [reflexivity|].
  destruct (cond x) eqn:Hx.
  - rewrite Hg, (Hc x Hx). simpl. rewrite Hx. now f_equal.
  - destruct (f x); simpl; [rewrite Hx|]; now rewrite IH.
Qed.

Lemma map_update_keys (cond : AttendanceRow -> bool)
    (g : AttendanceRow -> AttendanceRow) (rows : list AttendanceRow) :
  (forall r, attendance_key (g r) = attendance_key r) ->
  map attendance_key (map (fun r => if cond r then g r else r) rows)
  = map attendance_key rows.
Proof.
  intros Hg. rewrite map_map. apply map_ext.
  intros r. destruct (cond r); [apply Hg|reflexivity].
Qed.

Section OrderBy.

Context {A : Type} (le : A -> A -> bool).

Hypothesis le_total : forall x y, le x y = true \/ le y x = true.
Hypothesis le_trans :
  forall x y z, le x y = true -> le y z = true -> le x z = true.

Let R (x y : A) : Prop := le x y = true.

Lemma insert_by_perm (x : A) (l : list A) :
  Permutation (x :: l) (insert_by le x l).
Proof.
  induction l as [|y l IH]; simpl; [reflexivity|].
  destruct (le x y); [reflexivity|].
  rewrite perm_swap. now apply perm_skip.
Qed.

Lemma order_by_perm (l : list A) : Permutation l (order_by le l).
Proof.
  induction l as [|x l IH]; simpl; [reflexivity|].
  rewrite <- insert_by_perm. now apply perm_skip.
Qed.

Lemma insert_by_sorted (x : A) (l : list A) :
  StronglySorted R l -> StronglySorted R (insert_by le x l).
Proof.
  induction 1 as [|y l Hs IH Hy]; simpl.
  - repeat constructor.
  - destruct (le x y) eqn:Hxy.
    + constructor; [now constructor|].
      constructor; [exact Hxy|].
      eapply Forall_impl; [|exact Hy].
      intros z Hz. exact (le_trans _ _ _ Hxy Hz).
    + constructor; [exact IH|].
      eapply Permutation_Forall; [apply insert_by_perm|].
      constructor; [|exact Hy].
      destruct (le_total x y) as [H|H]; [congruence|exact H].
Qed.

Lemma order_by_sorted (l : list A) : StronglySorted R (order_by le l).
Proof.
  induction l as [|x l IH]; simpl; [constructor|].
  now apply insert_by_sorted.
Qed.

End OrderBy.

Lemma StronglySorted_impl {A} (R R' : A -> A -> Prop) (l : list A) :
  (forall x y, R x y -> R' x y) ->
  StronglySorted R l -> StronglySorted R' l.
Proof.
  intros HR. induction 1 as [|x l Hs IH Hx]; constructor; [exact IH|].
  eapply Forall_impl; [|exact Hx]. intros y. apply HR.
Qed.

Lemma StronglySorted_firstn {A} (R : A -> A -> Prop) (n : nat) (l : list A) :
  StronglySorted R l -> StronglySorted R (firstn n l).
Proof.
  intros Hs. revert n.
  induction Hs as [|x l Hs IH Hx]; intros [|n]; simpl; try constructor.
  - apply IH.
  - rewrite Forall_forall in *. intros y Hy. apply Hx.
    rewrite <- (firstn_skipn n l). apply in_or_app. now left.
Qed.

(** In a sorted list every element of a prefix precedes every element of
    what follows the prefix. *)
Lemma StronglySorted_prefix_first {A} (R : A -> A -> Prop) (n : nat)
    (l : list A) :
  StronglySorted R l ->
  forall x y, In x (firstn n l) -> In y (skipn n l) -> R x y.
Proof.
  intros Hs. revert n.
  induction Hs as [|a l Hs IH Ha]; intros [|n] x y Hx Hy;
    simpl in *; try contradiction.
  destruct Hx as [<-|Hx].
  - rewrite Forall_forall in Ha. apply Ha.
    rewrite <- (firstn_skipn n l). apply in_or_app. now right.
  - now apply (IH n).
Qed.

Lemma In_firstn {A} (n : nat) (l : list A) (x : A) :
  In x (firstn n l) -> In x l.
Proof.
  intros H. rewrite <- (firstn_skipn n l). apply in_or_app. now left.
Qed.

(* ------------------------------------------------------------------ *)
(** ** The ledger: [recordCheckIn] and [recordCheckOut] *)
(* ------------------------------------------------------------------ *)

Lemma recordCheckIn_returns (userId : Z) (c : Q) (now : DATETIME)
    (db : Database) :
  result (recordCheckIn userId c now) db = Returned tt.
Proof.
  unfold result, recordCheckIn, try_catch, insert_attendance,
    update_attendance.
  destruct (existsb _ _); simpl; [reflexivity|].
  destruct (foreign_keys db && _); reflexivity.
Qed.

Lemma recordCheckIn_update (userId : Z) (c : Q) (now : DATETIME)
    (db : Database) :
  existsb (same_user_date userId (date_of now)) (attendance_v1 db) = true ->
  exec (recordCheckIn userId c now) db
  = set_attendance db
      (map (fun r => if same_user_date userId (date_of now) r
                     then set_check_in now c r else r)
         (attendance_v1 db))
      (attendance_seq db).
Proof.
  intros Hex.
  unfold exec, recordCheckIn, try_catch, insert_attendance.
  rewrite Hex. reflexivity.
Qed.

Lemma recordCheckIn_insert (userId : Z) (c : Q) (now : DATETIME)
    (db : Database) :
  existsb (same_user_date userId (date_of now)) (attendance_v1 db) = false ->
  foreign_keys db && negb (user_known db userId) = false ->
  exec (recordCheckIn userId c now) db
  = set_attendance db
      (attendance_v1 db ++
         [mkAttendance
            (next_rowid (attendance_seq db) (map att_id (attendance_v1 db)))
            userId now None (date_of now) c])
      (next_rowid (attendance_seq db) (map att_id (attendance_v1 db))).
Proof.
  intros Hex Hfk.
  unfold exec, recordCheckIn, try_catch, insert_attendance.
  rewrite Hex, Hfk. reflexivity.
Qed.

Lemma recordCheckIn_rejected (userId : Z) (c : Q) (now : DATETIME)
    (db : Database) :
  existsb (same_user_date userId (date_of now)) (attendance_v1 db) = false ->
  foreign_keys db && negb (user_known db userId) = true ->
  attendance_v1 (exec (recordCheckIn userId c now) db) = attendance_v1 db.
Proof.
  intros Hex Hfk.
  unfold exec, recordCheckIn, try_catch, insert_attendance, update_attendance.
  rewrite Hex, Hfk. simpl.
  rewrite <- (map_id (attendance_v1 db)) at 2.
  apply map_ext_in. intros r Hr.
  destruct (same_user_date userId (date_of now) r) eqn:E; [|reflexivity].
  assert (existsb (same_user_date userId (date_of now)) (attendance_v1 db)
          = true) by (apply existsb_exists; eauto).
  congruence.
Qed.

Lemma recordCheckIn_users (userId : Z) (c : Q) (now : DATETIME)
    (db : Database) :
  users_v1 (exec (recordCheckIn userId c now) db) = users_v1 db
  /\ foreign_keys (exec (recordCheckIn userId c now) db) = foreign_keys db
  /\ face_samples_v1 (exec (recordCheckIn userId c now) db)
     = face_samples_v1 db.
Proof.
  unfold exec, recordCheckIn, try_catch, insert_attendance,
    update_attendance.
  destruct (existsb _ _); simpl; [auto|].
  destruct (foreign_keys db && _); simpl; auto.
Qed.

Lemma set_check_in_key (now : DATETIME) (c : Q) (r : AttendanceRow) :
  attendance_key (set_check_in now c r) = attendance_key r.
Proof. reflexivity. Qed.

Lemma set_check_out_key (now : DATETIME) (r : AttendanceRow) :
  attendance_key (set_check_out now r) = attendance_key r.
Proof. reflexivity. Qed.

(** [recordCheckIn] keeps [UNIQUE(user_id, date)]. *)
Lemma recordCheckIn_unique (userId : Z) (c : Q) (now : DATETIME)
    (db : Database) :
  unique_user_date db ->
  unique_user_date (exec (recordCheckIn userId c now) db).
Proof.
  unfold unique_user_date. intros Hnd.
  destruct (existsb (same_user_date userId (date_of now)) (attendance_v1 db))
    eqn:Hex.
  - rewrite recordCheckIn_update by assumption. simpl.
    rewrite map_update_keys; [assumption|apply set_check_in_key].
  - destruct (foreign_keys db && negb (user_known db userId)) eqn:Hfk.
    + now rewrite recordCheckIn_rejected.
    + rewrite recordCheckIn_insert by assumption. simpl.
      rewrite map_app. simpl.
      apply NoDup_app_remove_l with (l := []). simpl.
      apply Permutation_NoDup with
        (l := (userId, date_of now) :: map attendance_key (attendance_v1 db)).
      * apply Permutation_cons_append.
      * constructor; [|assumption].
        intros Hin. apply in_map_iff in Hin as [r [Hkey Hr]].
        apply same_user_date_key in Hkey.
        assert (existsb (same_user_date userId (date_of now))
                  (attendance_v1 db) = true)
          by (apply existsb_exists; eauto).
        congruence.
Qed.

(** [recordCheckOut] keeps [UNIQUE(user_id, date)]. *)
Lemma recordCheckOut_unique (userId : Z) (now : DATETIME) (db : Database) :
  unique_user_date db -> unique_user_date (exec (recordCheckOut userId now) db).
Proof.
  unfold unique_user_date, exec, recordCheckOut, update_attendance. simpl.
  intros Hnd. rewrite map_update_keys; [assumption|apply set_check_out_key].
Qed.

(** After one [recordCheckIn] the user has exactly one row for the day,
    and it carries the time and the confidence of the call. *)
Lemma recordCheckIn_row (userId : Z) (c : Q) (now : DATETIME)
    (db : Database) :
  unique_user_date db ->
  (foreign_keys db = true -> user_known db userId = true) ->
  exists r,
    rows_of userId (date_of now) (exec (recordCheckIn userId c now) db) = [r]
    /\ att_check_in_time r = now
    /\ att_confidence_score r = c.
Proof.
  intros Hnd Hfk. unfold rows_of.
  destruct (existsb (same_user_date userId (date_of now)) (attendance_v1 db))
    eqn:Hex.
  - rewrite recordCheckIn_update by assumption. simpl.
    rewrite filter_map_update; auto.
    destruct (unique_key_one_row _ _ _ Hnd Hex) as [r Hr].
    rewrite Hr. simpl.
    assert (Hin : In r (filter (same_user_date userId (date_of now))
                          (attendance_v1 db)))
      by (rewrite Hr; now left).
    apply filter_In in Hin as [_ Hsame]. rewrite Hsame.
    eexists; split; [reflexivity|]. split; reflexivity.
  - assert (Hok : foreign_keys db && negb (user_known db userId) = false).
    { destruct (foreign_keys db); simpl; [|reflexivity].
      now rewrite Hfk. }
    rewrite recordCheckIn_insert by assumption. simpl.
    rewrite filter_app, (filter_absent _ _ Hex). simpl.
    unfold same_user_date at 1. simpl. rewrite !Z.eqb_refl. simpl.
    eexists; split; [reflexivity|]. split; reflexivity.
Qed.







(** Scenario C: two check-ins of one user on one day leave one row, with
    the confidence and the time of the second. *)
Example two_check_ins_one_row :
  attendance_v1 (recordCheckIns 1 [(100, 90 # 1); (200, 95 # 1)] one_user)
  = [mkAttendance 1 1 200 None 0 (95 # 1)].
Proof. reflexivity. Qed.

Lemma recordCheckOut_returns (userId : Z) (now : DATETIME) (db : Database) :
  result (recordCheckOut userId now) db = Returned tt.
Proof. reflexivity. Qed.

Lemma recordCheckOut_rows (userId : Z) (now : DATETIME) (db : Database) :
  attendance_v1 (exec (recordCheckOut userId now) db)
  = map (fun r => if same_user_date userId (date_of now) r
                     && is_null (att_check_out_time r)
                  then set_check_out now r else r)
      (attendance_v1 db).
Proof. reflexivity. Qed.

(** In a ledger reached without a check-in after a check-out, no stored
    time is later than the clock and no check-out precedes its check-in. *)
Lemma reached_times (t : DATETIME) (db : Database) :
  reached_without_recheckin t db ->
  forall r, In r (attendance_v1 db) ->
    att_check_in_time r <= t
    /\ forall o, att_check_out_time r = Some o ->
         att_check_in_time r <= o /\ o <= t.
Proof.
  induction 1 as [t db Hempty
                 |t db userId c now Hreach IH Hclock Hguard
                 |t db userId now Hreach IH Hclock].
  - rewrite Hempty. intros r [].
  - intros r' Hin.
    destruct (existsb (same_user_date userId (date_of now)) (attendance_v1 db))
      eqn:Hex.
    + rewrite recordCheckIn_update in Hin by assumption. simpl in Hin.
      apply in_map_iff in Hin as [r [Hr' Hr]].
      destruct (IH r Hr) as [Hci Hco].
      destruct (same_user_date userId (date_of now) r) eqn:Hsame; subst r'.
      * simpl. split; [lia|]. intros o Ho. exfalso.
        unfold checked_out_today in Hguard.
        assert (Hex' : existsb
                  (fun r0 => same_user_date userId (date_of now) r0
                             && negb (is_null (att_check_out_time r0)))
                  (attendance_v1 db) = true).
        { apply existsb_exists. exists r. split; [assumption|].
          rewrite Hsame, Ho. reflexivity. }
        congruence.
      * split; [lia|]. intros o Ho. destruct (Hco o Ho). lia.
    + destruct (foreign_keys db && negb (user_known db userId)) eqn:Hfk.
      * rewrite recordCheckIn_rejected in Hin by assumption.
        destruct (IH r' Hin) as [Hci Hco].
        split; [lia|]. intros o Ho. destruct (Hco o Ho). lia.
      * rewrite recordCheckIn_insert in Hin by assumption. simpl in Hin.
        apply in_app_or in Hin as [Hin|[<-|[]]].
        -- destruct (IH r' Hin) as [Hci Hco].
           split; [lia|]. intros o Ho. destruct (Hco o Ho). lia.
        -- simpl. split; [lia|]. intros o Ho. discriminate.
  - intros r' Hin. rewrite recordCheckOut_rows in Hin.
    apply in_map_iff in Hin as [r [Hr' Hr]].
    destruct (IH r Hr) as [Hci Hco].
    destruct (same_user_date userId (date_of now) r
              && is_null (att_check_out_time r)); subst r'.
    + simpl. split; [lia|]. intros o Ho. injection Ho as <-. lia.
    + split; [lia|]. intros o Ho. destruct (Hco o Ho). lia.
Qed.

(** C2, as amended. In every ledger reached from an empty one by
    [recordCheckIn] and [recordCheckOut] calls whose clock never goes back
    and in which [recordCheckIn] is never applied to a user who has already
    checked out that day, a check-out time that is set is not earlier than
    the check-in time of its record. *)
Theorem check_out_not_before_check_in :
  forall (t : DATETIME) (db : Database) (r : AttendanceRow) (o : DATETIME),
    reached_without_recheckin t db ->
    In r (attendance_v1 db) ->
    att_check_out_time r = Some o ->
    att_check_in_time r <= o.
Proof.
  intros t db r o Hreach Hin Ho.
  destruct (reached_times t db Hreach r Hin) as [_ Hco].
  now destruct (Hco o Ho).
Qed.

Lemma check_out_not_before_check_in_witness :
  att_check_in_time (mkAttendance 1 1 100 (Some 200) 0 (90 # 1)) <= 200.
Proof.
  apply (check_out_not_before_check_in 200
           (exec (recordCheckOut 1 200)
              (exec (recordCheckIn 1 (90 # 1) 100) one_user))).
  - apply reached_check_out with (t := 100); [|lia].
    apply reached_check_in with (t := 0); [|lia|reflexivity].
    apply reached_start. reflexivity.
  - left. reflexivity.
  - reflexivity.
Defined.

(** C2, as stated, fails: after a check-in at 100, a check-out at 200 and
    a second check-in at 300 on the same day, the one record of the user
    has check-in time 300 and check-out time 200. *)
Lemma check_out_before_refreshed_check_in :
  attendance_v1 (ledger_run in_out_in one_user)
  = [mkAttendance 1 1 300 (Some 200) 0 (95 # 1)]
  /\ exists r o,
       In r (attendance_v1 (ledger_run in_out_in one_user))
       /\ att_check_out_time r = Some o
       /\ o < att_check_in_time r.
Proof.
  split; [reflexivity|].
  exists (mkAttendance 1 1 300 (Some 200) 0 (95 # 1)), 200.
  split; [left; reflexivity|]. split; [reflexivity|]. simpl. lia.
Qed.

Lemma Forall2_map_image {A} (P : A -> A -> Prop) (f : A -> A) (l : list A) :
  (forall x, In x l -> P x (f x)) -> Forall2 P l (map f l).
Proof.
  induction l as [|x l IH]; simpl; intros H; constructor.
  - apply H. now left.
  - apply IH. intros y Hy. apply H. now right.
Qed.

Lemma set_attendance_same (db : Database) :
  set_attendance db (attendance_v1 db) (attendance_seq db) = db.
Proof. destruct db; reflexivity. Qed.

(** C3. When [recordCheckIn] runs for a user and day that already have a
    row, it returns, and the only fields it changes are [check_in_time]
    and [confidence_score] of the rows of that user and day: the id, the
    user, the date and the check-out time of every row are kept, every
    other row is kept whole, no row is added or removed, and the other
    tables and counters are untouched. *)
Theorem recordCheckIn_existing_row_frame :
  forall (db : Database) (userId : Z) (c : Q) (now : DATETIME),
    (exists r0, In r0 (attendance_v1 db)
                /\ att_user_id r0 = userId /\ att_date r0 = date_of now) ->
    result (recordCheckIn userId c now) db = Returned tt
    /\ users_v1 (exec (recordCheckIn userId c now) db) = users_v1 db
    /\ users_seq (exec (recordCheckIn userId c now) db) = users_seq db
    /\ face_samples_v1 (exec (recordCheckIn userId c now) db)
       = face_samples_v1 db
    /\ face_samples_seq (exec (recordCheckIn userId c now) db)
       = face_samples_seq db
    /\ attendance_seq (exec (recordCheckIn userId c now) db)
       = attendance_seq db
    /\ Forall2
         (fun r r' =>
            att_id r' = att_id r
            /\ att_user_id r' = att_user_id r
            /\ att_date r' = att_date r
            /\ att_check_out_time r' = att_check_out_time r
            /\ if (att_user_id r =? userId) && (att_date r =? date_of now)
               then att_check_in_time r' = now /\ att_confidence_score r' = c
               else r' = r)
         (attendance_v1 db)
         (attendance_v1 (exec (recordCheckIn userId c now) db)).
Proof.
  intros db userId c now [r0 [Hin [Hu Hd]]].
  assert (Hex : existsb (same_user_date userId (date_of now))
                  (attendance_v1 db) = true).
  { apply existsb_exists. exists r0. split; [assumption|].
    apply same_user_date_key. unfold attendance_key. now rewrite Hu, Hd. }
  split; [apply recordCheckIn_returns|].
  rewrite recordCheckIn_update by assumption. simpl.
  repeat (split; [reflexivity|]).
  apply Forall2_map_image. intros r _.
  unfold same_user_date.
  destruct ((att_user_id r =? userId) && (att_date r =? date_of now));
    simpl; auto 10.
Qed.

Lemma recordCheckIn_existing_row_frame_witness :
  result (recordCheckIn 1 (95 # 1) 300) checked_out = Returned tt
  /\ users_v1 (exec (recordCheckIn 1 (95 # 1) 300) checked_out)
     = users_v1 checked_out
  /\ users_seq (exec (recordCheckIn 1 (95 # 1) 300) checked_out)
     = users_seq checked_out
  /\ face_samples_v1 (exec (recordCheckIn 1 (95 # 1) 300) checked_out)
     = face_samples_v1 checked_out
  /\ face_samples_seq (exec (recordCheckIn 1 (95 # 1) 300) checked_out)
     = face_samples_seq checked_out
  /\ attendance_seq (exec (recordCheckIn 1 (95 # 1) 300) checked_out)
     = attendance_seq checked_out
  /\ Forall2
       (fun r r' =>
          att_id r' = att_id r
          /\ att_user_id r' = att_user_id r
          /\ att_date r' = att_date r
          /\ att_check_out_time r' = att_check_out_time r
          /\ if (att_user_id r =? 1) && (att_date r =? date_of 300)
             then att_check_in_time r' = 300
                  /\ att_confidence_score r' = 95 # 1
             else r' = r)
       (attendance_v1 checked_out)
       (attendance_v1 (exec (recordCheckIn 1 (95 # 1) 300) checked_out)).
Proof.
  apply (recordCheckIn_existing_row_frame checked_out 1 (95 # 1) 300).
  exists (mkAttendance 1 1 100 (Some 200) 0 (90 # 1)).
  split; [left; reflexivity|]. split; reflexivity.
Defined.

(** C4. [recordCheckOut] always returns. It creates no row and touches
    no other table. A row changes exactly when it is the row of the user
    for today and its check-out time is unset: that row gets check-out
    time [now] and keeps its other fields; every other row is kept whole.
    When the user has no row for today, or the row already has a
    check-out time, the database is left exactly as it was. *)
Theorem recordCheckOut_first_wins :
  forall (db : Database) (userId : Z) (now : DATETIME),
    result (recordCheckOut userId now) db = Returned tt
    /\ users_v1 (exec (recordCheckOut userId now) db) = users_v1 db
    /\ face_samples_v1 (exec (recordCheckOut userId now) db)
       = face_samples_v1 db
    /\ Forall2
         (fun r r' =>
            if (att_user_id r =? userId) && (att_date r =? date_of now)
               && is_null (att_check_out_time r)
            then r' = mkAttendance (att_id r) (att_user_id r)
                        (att_check_in_time r) (Some now) (att_date r)
                        (att_confidence_score r)
            else r' = r)
         (attendance_v1 db)
         (attendance_v1 (exec (recordCheckOut userId now) db))
    /\ ((forall r, In r (attendance_v1 db) ->
           att_user_id r = userId -> att_date r = date_of now ->
           att_check_out_time r <> None) ->
        exec (recordCheckOut userId now) db = db).
Proof.
  intros db userId now.
  split; [reflexivity|]. split; [reflexivity|]. split; [reflexivity|].
  split.
  - rewrite recordCheckOut_rows. apply Forall2_map_image. intros r _.
    unfold same_user_date.
    destruct ((att_user_id r =? userId) && (att_date r =? date_of now)
              && is_null (att_check_out_time r)); reflexivity.
  - intros Hnone.
    assert (Hrows : attendance_v1 (exec (recordCheckOut userId now) db)
                    = attendance_v1 db).
    { rewrite recordCheckOut_rows.
      rewrite <- (map_id (attendance_v1 db)) at 2.
      apply map_ext_in. intros r Hr.
      destruct (same_user_date userId (date_of now) r) eqn:Hsame;
        [|reflexivity].
      apply same_user_date_key in Hsame. injection Hsame as Hu Hd.
      specialize (Hnone r Hr Hu Hd).
      destruct (att_check_out_time r); [reflexivity|congruence]. }
    unfold exec, recordCheckOut, update_attendance in *. simpl in *.
    rewrite Hrows. apply set_attendance_same.
Qed.

(** Scenario D: a check-out with no check-in that day changes nothing. *)
Lemma recordCheckOut_first_wins_witness :
  exec (recordCheckOut 1 200) one_user = one_user.
Proof.
  destruct (recordCheckOut_first_wins one_user 1 200)
    as [_ [_ [_ [_ Hnoop]]]].
  apply Hnoop. intros r [].
Defined.

(** The first check-out wins: a second one keeps the stored time. *)
Example second_check_out_keeps_first :
  attendance_v1
    (ledger_run [(CheckIn 1 (90 # 1), 100); (CheckOut 1, 200);
                 (CheckOut 1, 250)] one_user)
  = [mkAttendance 1 1 100 (Some 200) 0 (90 # 1)].
Proof. reflexivity. Qed.

(* ------------------------------------------------------------------ *)
(** ** The operations keep the constraints of the schema *)
(* ------------------------------------------------------------------ *)

Lemma next_rowid_fresh (seq : Z) (ids : list Z) (i : Z) :
  In i ids -> i < next_rowid seq ids.
Proof.
  unfold next_rowid. intros Hin.
  assert (i <= fold_right Z.max 0 ids); [|lia].
  induction ids as [|j ids IH]; simpl; [contradiction|].
  destruct Hin as [->|Hin]; [lia|]. specialize (IH Hin). lia.
Qed.

(** [createUser] keeps [id] a primary key and [email] unique. *)
Lemma createUser_keys (name0 email0 enc : string) (now : DATETIME)
    (db : Database) :
  users_primary_key db -> email_unique db ->
  users_primary_key (snd (createUser name0 email0 enc now db))
  /\ email_unique (snd (createUser name0 email0 enc now db)).
Proof.
  unfold users_primary_key, email_unique, createUser. intros Hpk Hemail.
  destruct (existsb _ (users_v1 db)) eqn:Hex; simpl; [auto|].
  rewrite !map_app. simpl. split.
  - apply NoDup_app_remove_l with (l := []). simpl.
    eapply Permutation_NoDup; [apply Permutation_cons_append|].
    constructor; [|exact Hpk].
    intros Hin. apply (next_rowid_fresh (users_seq db)) in Hin. lia.
  - apply NoDup_app_remove_l with (l := []). simpl.
    eapply Permutation_NoDup; [apply Permutation_cons_append|].
    constructor; [|exact Hemail].
    intros Hin. apply in_map_iff in Hin as [u [He Hu]].
    assert (existsb (fun u => String.eqb (usr_email u) email0) (users_v1 db)
            = true); [|congruence].
    apply existsb_exists. exists u. split; [exact Hu|].
    now apply String.eqb_eq.
Qed.

(** [recordCheckIn] keeps every attendance row referring to a user, when
    foreign keys are enforced or the user checked in exists. *)
Lemma recordCheckIn_references (userId : Z) (c : Q) (now : DATETIME)
    (db : Database) :
  attendance_references_users db ->
  foreign_keys db = true \/ user_known db userId = true ->
  attendance_references_users (exec (recordCheckIn userId c now) db).
Proof.
  unfold attendance_references_users. intros Href Hknown a Ha.
  destruct (recordCheckIn_users userId c now db) as [Hu _].
  unfold user_known in *. rewrite Hu.
  destruct (existsb (same_user_date userId (date_of now)) (attendance_v1 db))
    eqn:Hex.
  - rewrite recordCheckIn_update in Ha by assumption. simpl in Ha.
    apply in_map_iff in Ha as [r [<- Hr]].
    destruct (same_user_date userId (date_of now) r); simpl;
      now apply Href.
  - destruct (foreign_keys db && negb (user_known db userId)) eqn:Hfk.
    + rewrite recordCheckIn_rejected in Ha by assumption. now apply Href.
    + rewrite recordCheckIn_insert in Ha by assumption. simpl in Ha.
      apply in_app_or in Ha as [Ha|[<-|[]]]; [now apply Href|]. simpl.
      unfold user_known in Hfk.
      destruct Hknown as [Hon|Hk]; [|exact Hk].
      rewrite Hon in Hfk. simpl in Hfk.
      now apply negb_false_iff in Hfk.
Qed.

Lemma recordCheckOut_references (userId : Z) (now : DATETIME)
    (db : Database) :
  attendance_references_users db ->
  attendance_references_users (exec (recordCheckOut userId now) db).
Proof.
  unfold attendance_references_users. intros Href a Ha.
  rewrite recordCheckOut_rows in Ha.
  apply in_map_iff in Ha as [r [<- Hr]].
  destruct (same_user_date userId (date_of now) r
            && is_null (att_check_out_time r)); simpl; now apply Href.
Qed.

(* ------------------------------------------------------------------ *)
(** ** Statistics: [getAttendanceStats] *)
(* ------------------------------------------------------------------ *)

Lemma ledger_run_unique (calls : list (LedgerCall * DATETIME))
    (db : Database) :
  unique_user_date db -> unique_user_date (ledger_run calls db).
Proof.
  revert db. induction calls as [|[c now] calls IH]; intros db Hnd.
  - exact Hnd.
  - simpl. apply IH. destruct c as [userId conf|userId]; simpl.
    + now apply recordCheckIn_unique.
    + now apply recordCheckOut_unique.
Qed.

(** Under [UNIQUE(user_id, date)] the rows of one day belong to pairwise
    different users. *)
Lemma one_day_distinct_users (rows : list AttendanceRow) (day : DATE) :
  NoDup (map attendance_key rows) ->
  NoDup (map att_user_id (filter (fun a => att_date a =? day) rows)).
Proof.
  induction rows as [|a rows IH]; simpl; intros Hnd; [constructor|].
  inversion Hnd as [|k ks Hnotin Hnd']; subst.
  destruct (att_date a =? day) eqn:Hday; [|now apply IH].
  simpl. constructor; [|now apply IH].
  intros Hin. apply Hnotin.
  apply in_map_iff in Hin as [b [Hu Hb]].
  apply filter_In in Hb as [Hb Hbday].
  apply Z.eqb_eq in Hday. apply Z.eqb_eq in Hbday.
  apply in_map_iff. exists b. split; [|exact Hb].
  unfold attendance_key. congruence.
Qed.

(** C5. In every stats result over a ledger that satisfies
    [UNIQUE(user_id, date)], the number of rows dated today equals the
    number of distinct users with a row dated today. *)
Theorem stats_checkins_equal_present :
  forall (db : Database) (now : DATETIME),
    unique_user_date db ->
    total_checkins_today (getAttendanceStats now db)
    = present_today (getAttendanceStats now db).
Proof.
  intros db now Hnd. simpl. unfold count_distinct.
  rewrite nodup_fixed_point by now apply one_day_distinct_users.
  now rewrite length_map.
Qed.

Lemma stats_checkins_equal_present_witness :
  total_checkins_today (getAttendanceStats 300 checked_out)
  = present_today (getAttendanceStats 300 checked_out).
Proof.
  apply (stats_checkins_equal_present checked_out 300).
  unfold unique_user_date. simpl. repeat constructor. intros [].
Defined.

Lemma join_users_In (cond : AttendanceRow -> bool) (db : Database)
    (r : AttendanceRecord) :
  In r (join_users cond db) <->
  exists a u,
    In a (attendance_v1 db) /\ cond a = true
    /\ In u (users_v1 db) /\ att_user_id a = usr_id u
    /\ r = joined a u.
Proof.
  unfold join_users. rewrite in_flat_map. split.
  - intros [a [Ha Hr]].
    apply filter_In in Ha as [Ha Hc].
    apply in_map_iff in Hr as [u [Hr Hu]].
    apply filter_In in Hu as [Hu Hid]. apply Z.eqb_eq in Hid.
    exists a, u. auto.
  - intros [a [u [Ha [Hc [Hu [Hid Hr]]]]]].
    exists a. split; [apply filter_In; auto|].
    apply in_map_iff. exists u. split; [auto|].
    apply filter_In. split; [exact Hu|]. now apply Z.eqb_eq.
Qed.

Lemma row_of_joined (a : AttendanceRow) (u : UserRow) :
  row_of (joined a u) = a.
Proof. destruct a; reflexivity. Qed.

(** With [id] a primary key of [users_v1] and every attendance row
    referring to a user, the join keeps each selected row exactly once. *)
Lemma join_users_rows (cond : AttendanceRow -> bool) (db : Database) :
  users_primary_key db ->
  attendance_references_users db ->
  map row_of (join_users cond db) = filter cond (attendance_v1 db).
Proof.
  intros Hpk Href. unfold join_users.
  assert (Hall : forall a, In a (filter cond (attendance_v1 db)) ->
                           user_known db (att_user_id a) = true).
  { intros a Ha. apply filter_In in Ha as [Ha _]. now apply Href. }
  induction (filter cond (attendance_v1 db)) as [|a rows IH];
    simpl; [reflexivity|].
  rewrite map_app, IH by (intros b Hb; apply Hall; now right).
  assert (Hone : exists u,
             filter (fun u => att_user_id a =? usr_id u) (users_v1 db) = [u]).
  { apply (filter_unique_key usr_id _ (att_user_id a)).
    - intros u. rewrite Z.eqb_eq. split; congruence.
    - exact Hpk.
    - specialize (Hall a (or_introl eq_refl)).
      unfold user_known in Hall.
      apply existsb_exists in Hall as [u [Hu Hid]].
      apply existsb_exists. exists u. split; [exact Hu|].
      apply Z.eqb_eq in Hid. now apply Z.eqb_eq. }
  destruct Hone as [u Hu]. rewrite Hu. simpl.
  now rewrite row_of_joined.
Qed.

Lemma check_in_desc_total (r s : AttendanceRecord) :
  check_in_desc r s = true \/ check_in_desc s r = true.
Proof. unfold check_in_desc. rewrite !Z.leb_le. lia. Qed.

Lemma check_in_desc_trans (r s t : AttendanceRecord) :
  check_in_desc r s = true -> check_in_desc s t = true ->
  check_in_desc r t = true.
Proof. unfold check_in_desc. rewrite !Z.leb_le. lia. Qed.

Lemma getTodayAttendance_sorted (now : DATETIME) (db : Database) :
  StronglySorted (fun r s => check_in_time s <= check_in_time r)
    (getTodayAttendance now db).
Proof.
  unfold getTodayAttendance.
  apply StronglySorted_impl
    with (R := fun r s => check_in_desc r s = true).
  - intros r s H. now apply Z.leb_le.
  - apply order_by_sorted.
    + apply check_in_desc_total.
    + apply check_in_desc_trans.
Qed.

Lemma getTodayAttendance_In (now : DATETIME) (db : Database)
    (r : AttendanceRecord) :
  In r (getTodayAttendance now db) ->
  exists a u,
    In a (attendance_v1 db) /\ att_date a = date_of now
    /\ In u (users_v1 db) /\ att_user_id a = usr_id u
    /\ r = joined a u.
Proof.
  unfold getTodayAttendance. intros Hin.
  apply (Permutation_in _ (Permutation_sym (order_by_perm _ _))) in Hin.
  apply join_users_In in Hin as [a [u [Ha [Hd H]]]].
  apply Z.eqb_eq in Hd. exists a, u. auto.
Qed.

(** With [id] a primary key of [users_v1], the join keeps a selected row
    exactly once when its user exists and drops it otherwise. *)
Lemma join_users_known_rows (cond : AttendanceRow -> bool) (db : Database) :
  users_primary_key db ->
  map row_of (join_users cond db)
  = filter (fun a => user_known db (att_user_id a))
      (filter cond (attendance_v1 db)).
Proof.
  intros Hpk. unfold join_users.
  induction (filter cond (attendance_v1 db)) as [|a rows IH];
    simpl; [reflexivity|].
  rewrite map_app, IH.
  destruct (user_known db (att_user_id a)) eqn:Hknown.
  - assert (Hone : exists u,
               filter (fun u => att_user_id a =? usr_id u) (users_v1 db)
               = [u]).
    { apply (filter_unique_key usr_id _ (att_user_id a)).
      - intros u. rewrite Z.eqb_eq. split; congruence.
      - exact Hpk.
      - unfold user_known in Hknown.
        apply existsb_exists in Hknown as [u [Hu Hid]].
        apply existsb_exists. exists u. split; [exact Hu|].
        apply Z.eqb_eq in Hid. now apply Z.eqb_eq. }
    destruct Hone as [u Hu]. rewrite Hu. simpl.
    now rewrite row_of_joined.
  - rewrite (filter_absent (fun u => att_user_id a =? usr_id u)); simpl;
      [reflexivity|].
    destruct (existsb (fun u => att_user_id a =? usr_id u) (users_v1 db))
      eqn:E; [|reflexivity].
    apply existsb_exists in E as [u [Hu Hid]].
    assert (user_known db (att_user_id a) = true); [|congruence].
    apply existsb_exists. exists u. split; [exact Hu|].
    apply Z.eqb_eq in Hid. now apply Z.eqb_eq.
Qed.

(** C6, as amended. For every ledger state, [recent_checkins] of the
    stats holds at most 10 records; each is a row of the ledger dated
    today, annotated with the name of the user whose id it carries; they
    are in descending order of check-in time. With [id] the primary key
    of [users_v1], they are [min 10 n] of the [n] rows dated today whose
    user exists, and none of those left out has a later check-in time
    than a row returned; a row of today whose user id names no user is
    never returned. When every attendance row refers to a user, the rows
    dated today whose user exists are all the rows dated today. *)
Theorem recent_checkins_latest_ten :
  forall (db : Database) (now : DATETIME),
    let recent := recent_checkins (getAttendanceStats now db) in
    let today_rows :=
      filter (fun a => att_date a =? date_of now) (attendance_v1 db) in
    let known_today :=
      filter (fun a => user_known db (att_user_id a)) today_rows in
    (List.length recent <= 10)%nat
    /\ (forall r, In r recent ->
          date r = date_of now
          /\ In (row_of r) today_rows
          /\ exists u, In u (users_v1 db)
                       /\ usr_id u = user_id r /\ user_name r = usr_name u)
    /\ StronglySorted (fun r s => check_in_time s <= check_in_time r) recent
    /\ (users_primary_key db ->
        List.length recent = Nat.min 10 (List.length known_today)
        /\ exists rest,
             Permutation (map row_of (recent ++ rest)) known_today
             /\ forall r s, In r recent -> In s rest ->
                            check_in_time s <= check_in_time r)
    /\ (attendance_references_users db -> known_today = today_rows).
Proof.
  intros db now recent today_rows known_today.
  subst recent today_rows known_today.
  unfold getAttendanceStats. cbn [recent_checkins].
  split; [|split; [|split; [|split]]].
  - rewrite length_firstn. lia.
  - intros r Hr. apply In_firstn in Hr.
    apply getTodayAttendance_In in Hr as [a [u [Ha [Hd [Hu [Hid ->]]]]]].
    split; [exact Hd|]. split.
    + rewrite row_of_joined. apply filter_In. split; [exact Ha|].
      now apply Z.eqb_eq.
    + exists u. simpl. auto.
  - apply StronglySorted_firstn, getTodayAttendance_sorted.
  - intros Hpk.
    assert (Hperm : Permutation (map row_of (getTodayAttendance now db))
                      (filter (fun a => user_known db (att_user_id a))
                         (filter (fun a => att_date a =? date_of now)
                            (attendance_v1 db)))).
    { rewrite <- (join_users_known_rows _ db Hpk).
      apply Permutation_map. unfold getTodayAttendance.
      apply Permutation_sym, order_by_perm. }
    split.
    + rewrite length_firstn. f_equal.
      rewrite <- (Permutation_length Hperm). now rewrite length_map.
    + exists (skipn 10 (getTodayAttendance now db)).
      rewrite firstn_skipn. split; [exact Hperm|].
      intros r s Hr Hs.
      exact (StronglySorted_prefix_first _ 10 _
               (getTodayAttendance_sorted now db) r s Hr Hs).
  - intros Href.
    induction (filter (fun a => att_date a =? date_of now)
                 (attendance_v1 db)) as [|a rows IH] eqn:Hrows in |- *;
      [reflexivity|].
    simpl.
    assert (Hall : forall b, In b (a :: rows) -> In b (attendance_v1 db)).
    { intros b Hb.
      assert (Hin : In b (filter (fun a => att_date a =? date_of now)
                            (attendance_v1 db))) by (rewrite Hrows; exact Hb).
      now apply filter_In in Hin as [Hin _]. }
    rewrite (Href a (Hall a (or_introl eq_refl))). f_equal.
    apply filter_all_true. intros b Hb. apply Href, Hall. now right.
Qed.

Lemma recent_checkins_latest_ten_witness :
  List.length (recent_checkins (getAttendanceStats 300 with_unknown_user))
  = Nat.min 10
      (List.length
         (filter (fun a => user_known with_unknown_user (att_user_id a))
            (filter (fun a => att_date a =? date_of 300)
               (attendance_v1 with_unknown_user))))
  /\ exists rest,
       Permutation
         (map row_of
            (recent_checkins (getAttendanceStats 300 with_unknown_user)
             ++ rest))
         (filter (fun a => user_known with_unknown_user (att_user_id a))
            (filter (fun a => att_date a =? date_of 300)
               (attendance_v1 with_unknown_user)))
       /\ forall r s,
            In r (recent_checkins (getAttendanceStats 300 with_unknown_user))
            -> In s rest -> check_in_time s <= check_in_time r.
Proof.
  apply (proj1 (proj2 (proj2 (proj2
           (recent_checkins_latest_ten with_unknown_user 300))))).
  unfold users_primary_key. simpl. repeat constructor. intros [].
Defined.

(** C6, as stated, fails: without foreign-key enforcement Alice checks in
    at 100 and the id 9, which names no user, at 200. Today has two
    records; the stats return one, and the record with the latest
    check-in time is the one left out. *)
Lemma latest_check_in_left_out :
  filter (fun a => att_date a =? date_of 300) (attendance_v1 with_unknown_user)
  = [mkAttendance 1 1 100 None 0 (90 # 1);
     mkAttendance 2 9 200 None 0 (92 # 1)]
  /\ recent_checkins (getAttendanceStats 300 with_unknown_user)
     = [mkRecord 1 1 "Alice" 100 None 0 (90 # 1)]
  /\ exists a,
       In a (filter (fun a => att_date a =? date_of 300)
               (attendance_v1 with_unknown_user))
       /\ ~ In a (map row_of
                    (recent_checkins
                       (getAttendanceStats 300 with_unknown_user)))
       /\ forall r,
            In r (recent_checkins (getAttendanceStats 300 with_unknown_user))
            -> check_in_time r < att_check_in_time a.
Proof.
  split; [reflexivity|]. split; [reflexivity|].
  exists (mkAttendance 2 9 200 None 0 (92 # 1)).
  split; [right; left; reflexivity|]. split.
  - intros [H|[]]. discriminate.
  - intros r [<-|[]]. simpl. lia.
Qed.

(** Twelve users present: the stats show the ten latest check-ins, the
    latest first, and leave out the two earliest. *)
Example ten_of_twelve :
  map (fun r => (user_name r, check_in_time r))
    (recent_checkins (getAttendanceStats 200 twelve_present))
  = [("l", 112); ("k", 111); ("j", 110); ("i", 109); ("h", 108);
     ("g", 107); ("f", 106); ("e", 105); ("d", 104); ("c", 103)]%string.
Proof. vm_compute. reflexivity. Qed.

(* ------------------------------------------------------------------ *)
(** ** The handlers: [/checkin] and [/register] *)
(* ------------------------------------------------------------------ *)

Lemma truthy_nonempty (s : string) : truthy s = true <-> s <> ""%string.
Proof.
  unfold truthy. rewrite negb_true_iff. apply String.eqb_neq.
Qed.

Lemma truthy_empty (s : string) : truthy s = false <-> s = ""%string.
Proof.
  unfold truthy. rewrite negb_false_iff. apply String.eqb_eq.
Qed.

(** C7. For every probe, that is for every request that carries image
    data, if no active user is enrolled then [/checkin] fails with the
    answer that no registered users were found, an unsuccessful result
    with status 400, and records no attendance: the database is left as
    it was, whatever the image and whatever the recognition service would
    answer. *)
Theorem checkin_no_enrolled_users :
  forall (recognize : string -> list KnownFace ->
                      ProcessOutput FaceRecognitionResult)
         (image_data : string) (now : DATETIME) (db : Database),
    image_data <> ""%string ->
    getAllUserEncodings db = [] ->
    fst (checkin recognize image_data now db)
    = json 400 (Message false "No registered users found in the system")
    /\ snd (checkin recognize image_data now db) = db.
Proof.
  intros recognize image_data now db Himg Hnone.
  apply truthy_nonempty in Himg.
  unfold checkin, handle, bind, query, ret.
  rewrite Himg. simpl. rewrite Hnone. simpl.
  split; reflexivity.
Qed.

Lemma checkin_no_enrolled_users_witness :
  fst (checkin no_recognition "image" 100 (runMigrations true))
  = json 400 (Message false "No registered users found in the system")
  /\ snd (checkin no_recognition "image" 100 (runMigrations true))
     = runMigrations true.
Proof.
  apply (checkin_no_enrolled_users no_recognition "image" 100
           (runMigrations true)).
  - discriminate.
  - reflexivity.
Defined.

(** A request without image data is turned down before the enrolled
    users are read: the answer is that image data is required. *)
Example checkin_without_image :
  checkin no_recognition "" 100 (runMigrations true)
  = (json 400 (Message false "Image data is required"), runMigrations true).
Proof. reflexivity. Qed.

Lemma validation_well_formed (data : RegistrationData) :
  negb (truthy (name data)) || negb (truthy (email data))
  || (List.length (face_images data) =? 0)%nat = false
  <-> well_formed data.
Proof.
  unfold well_formed.
  rewrite !orb_false_iff, !negb_false_iff, !truthy_nonempty, Nat.eqb_neq.
  destruct (face_images data); simpl; intuition congruence.
Qed.

Lemma getUserByEmail_none (email0 : string) (db : Database) :
  getUserByEmail email0 db = None ->
  forall u, In u (users_v1 db) -> is_active u = true ->
            usr_email u <> email0.
Proof.
  unfold getUserByEmail. intros Hnone u Hu Hact Heq.
  assert (Hin : In u (filter (fun u => String.eqb (usr_email u) email0
                                       && is_active u) (users_v1 db))).
  { apply filter_In. split; [exact Hu|].
    rewrite Hact, andb_true_r. now apply String.eqb_eq. }
  destruct (filter _ (users_v1 db)); [contradiction|discriminate].
Qed.

Lemma addFaceSample_users (userId : Z) (img enc : string) (now : DATETIME)
    (db : Database) :
  users_v1 (snd (addFaceSample userId img enc now db)) = users_v1 db.
Proof.
  unfold addFaceSample.
  destruct (foreign_keys db && negb (user_known db userId)); reflexivity.
Qed.

Lemma add_face_samples_users (userId : option Z)
    (samples : list (string * string)) (now : DATETIME) (db : Database) :
  users_v1 (snd (add_face_samples userId samples now db)) = users_v1 db.
Proof.
  revert db. induction samples as [|[img enc] samples IH]; intros db.
  - reflexivity.
  - simpl. unfold bind, addFaceSample_with.
    destruct userId as [id|]; [|reflexivity].
    pose proof (addFaceSample_users id img enc now db) as Hone.
    destruct (addFaceSample id img enc now db) as [[[]|e] db'];
      simpl in *.
    + now rewrite IH.
    + exact Hone.
Qed.

(** [createUser] keeps email unique among the active users when no active
    user has the new email. *)
Lemma createUser_active_email (name0 email0 enc : string) (now : DATETIME)
    (db : Database) :
  active_email_unique db ->
  (forall u, In u (users_v1 db) -> is_active u = true ->
             usr_email u <> email0) ->
  active_email_unique (snd (createUser name0 email0 enc now db)).
Proof.
  unfold active_email_unique, createUser. intros Hnd Hfresh.
  destruct (existsb _ (users_v1 db)); simpl; [exact Hnd|].
  rewrite filter_app, map_app. simpl.
  apply NoDup_app_remove_l with (l := []). simpl.
  eapply Permutation_NoDup; [apply Permutation_cons_append|].
  constructor; [|exact Hnd].
  intros Hin. apply in_map_iff in Hin as [u [He Hu]].
  apply filter_In in Hu as [Hu Hact].
  exact (Hfresh u Hu Hact He).
Qed.

(** [/register] keeps email unique among the active users. *)
Lemma register_active_email (encode : string -> ProcessOutput EncodeResult)
    (data : RegistrationData) (now : DATETIME) (db : Database) :
  active_email_unique db ->
  active_email_unique (snd (register encode data now db)).
Proof.
  intros Hnd. unfold register, handle, bind, query, ret.
  destruct (negb (truthy (name data)) || negb (truthy (email data))
            || (List.length (face_images data) =? 0)%nat);
    simpl; [exact Hnd|].
  destruct (getUserByEmail (email data) db) eqn:Hexisting;
    simpl; [exact Hnd|].
  destruct (encode_images encode (face_images data))
    as [response|[|primary encodings]]; simpl; [exact Hnd|exact Hnd|].
  pose proof (createUser_active_email (name data) (email data) primary now db
                Hnd (getUserByEmail_none _ _ Hexisting)) as Hcreated.
  destruct (createUser (name data) (email data) primary now db)
    as [[userId|e] db1]; simpl in *; [|exact Hcreated].
  pose proof (add_face_samples_users userId
                (combine (face_images data) (primary :: encodings)) now db1)
    as Husers.
  destruct (add_face_samples userId _ now db1) as [[[]|e] db2];
    simpl in *; unfold active_email_unique in *; now rewrite Husers.
Qed.

(** C9, as amended. A registration request whose email is that of an
    active user leaves the database as it was, so no user row and no face
    sample row is created; it is answered with status 409 and the message
    that the user already exists when the request passes the input
    validation, and with status 400 and the validation message when the
    name or the images are missing. After every registration request,
    email is still unique among the active users. *)
Theorem register_duplicate_email :
  forall (encode : string -> ProcessOutput EncodeResult)
         (data : RegistrationData) (now : DATETIME) (db : Database)
         (existing : UserRow),
    getUserByEmail (email data) db = Some existing ->
    snd (register encode data now db) = db
    /\ (well_formed data ->
        fst (register encode data now db)
        = json 409 (Message false "User with this email already exists"))
    /\ (~ well_formed data ->
        fst (register encode data now db)
        = json 400
            (Message false
               "Name, email, and at least one face image are required"))
    /\ (active_email_unique db ->
        active_email_unique (snd (register encode data now db))).
Proof.
  intros encode data now db existing Hexisting.
  split; [|split; [|split]].
  - unfold register, handle, bind, query, ret.
    destruct (negb (truthy (name data)) || negb (truthy (email data))
              || (List.length (face_images data) =? 0)%nat);
      simpl; [reflexivity|].
    rewrite Hexisting. reflexivity.
  - intros Hwf. apply validation_well_formed in Hwf.
    unfold register, handle, bind, query, ret.
    rewrite Hwf. simpl. rewrite Hexisting. reflexivity.
  - intros Hnwf.
    unfold register, handle, bind, query, ret.
    destruct (negb (truthy (name data)) || negb (truthy (email data))
              || (List.length (face_images data) =? 0)%nat) eqn:Hv;
      simpl; [reflexivity|].
    exfalso. apply Hnwf. now apply validation_well_formed.
  - apply register_active_email.
Qed.

Lemma register_duplicate_email_witness :
  snd (register encode_any duplicate 100 one_user) = one_user
  /\ fst (register encode_any duplicate 100 one_user)
     = json 409 (Message false "User with this email already exists").
Proof.
  destruct (register_duplicate_email encode_any duplicate 100 one_user
              (mkUser 1 "Alice" "alice@example.com" "[0,0,0]" 0 (Some 1))
              eq_refl) as [Hdb [Hmsg _]].
  split; [exact Hdb|]. apply Hmsg.
  repeat split; discriminate.
Defined.

(** C9, as stated, fails: a registration request with the email of an
    active user and an empty name is answered with status 400 and the
    validation message, not with the response for a duplicate email. *)
Lemma register_nameless_duplicate :
  getUserByEmail (email nameless_duplicate) one_user
  = Some (mkUser 1 "Alice" "alice@example.com" "[0,0,0]" 0 (Some 1))
  /\ fst (register encode_any nameless_duplicate 100 one_user)
     = json 400
         (Message false
            "Name, email, and at least one face image are required")
  /\ fst (register encode_any nameless_duplicate 100 one_user)
     <> json 409 (Message false "User with this email already exists").
Proof.
  split; [reflexivity|]. split; [reflexivity|]. discriminate.
Qed.

(** A complete request with a new email stores the user, but no face
    sample: [createUser] returns [undefined], the first [addFaceSample]
    throws, and the request is answered with status 500. *)
Example register_new_user :
  let served := register encode_any
                  (mkRegistration "Bob" "bob@example.com" ["p"; "q"]%string)
                  100 one_user in
  fst served = json 500 (Message false "Failed to register user")
  /\ map usr_email (users_v1 (snd served))
     = ["alice@example.com"; "bob@example.com"]%string
  /\ face_samples_v1 (snd served) = [].
Proof. repeat split. Qed.

(* ------------------------------------------------------------------ *)
(** ** Deactivated users *)
(* ------------------------------------------------------------------ *)







(* ------------------------------------------------------------------ *)
(** ** The matcher: distance and confidence *)
(* ------------------------------------------------------------------ *)

Section MatcherFacts.

Import Matcher.
Local Open Scope R_scope.

Lemma clamp01_bounds (x : R) : 0 <= clamp01 x <= 1.
Proof.
  unfold clamp01. split.
  - apply Rmax_l.
  - apply Rmax_lub; [lra|apply Rmin_l].
Qed.

Lemma clamp01_inside (x : R) : 0 <= x <= 1 -> clamp01 x = x.
Proof.
  intros [H0 H1]. unfold clamp01, Rmax, Rmin.
  destruct (Rle_dec 1 x); destruct (Rle_dec 0 _); lra.
Qed.

Lemma clamp01_monotone (x y : R) : x <= y -> clamp01 x <= clamp01 y.
Proof.
  intros H. unfold clamp01.
  apply Rle_max_compat_l, Rle_min_compat_l, H.
Qed.

Lemma ratio_bounds (d t : R) : 0 < t -> 0 <= d <= t -> 0 <= d / t <= 1.
Proof.
  intros Ht [H0 H1]. unfold Rdiv.
  pose proof (Rinv_0_lt_compat t Ht) as Hinv.
  split.
  - apply Rmult_le_pos; lra.
  - replace 1 with (t * / t) by (field; lra).
    apply Rmult_le_compat_r; lra.
Qed.

Lemma ratio_increasing (d1 d2 t : R) : 0 < t -> d1 < d2 -> d1 / t < d2 / t.
Proof.
  intros Ht H. unfold Rdiv.
  apply Rmult_lt_compat_r; [now apply Rinv_0_lt_compat|exact H].
Qed.

Lemma ratio_monotone (d1 d2 t : R) : 0 < t -> d1 <= d2 -> d1 / t <= d2 / t.
Proof.
  intros Ht H. unfold Rdiv.
  apply Rmult_le_compat_r; [|exact H].
  left. now apply Rinv_0_lt_compat.
Qed.

Lemma euclidean_nonneg (p q : Vector) : 0 <= euclidean p q.
Proof. apply sqrt_pos. Qed.

(** The selected candidate is one of the candidates. *)
Lemma closest_In (best : Z * R) (rest : list (Z * R)) :
  In (closest best rest) (best :: rest).
Proof.
  revert best. induction rest as [|c rest IH]; intros best; simpl.
  - now left.
  - destruct (IH (if closer best c then best else c)) as [H|H].
    + rewrite <- H. destruct (closer best c); auto.
    + auto.
Qed.

Lemma matched_distance (probe : Vector) (candidates : list (Z * Vector))
    (t : R) (r : MatchResult) :
  matchFace probe candidates t = inr r ->
  confidence r = confidence_of (distance r) t
  /\ 0 <= distance r
  /\ (matched r = true -> distance r <= t).
Proof.
  unfold matchFace.
  destruct candidates as [|[u0 v0] others]; [discriminate|].
  destruct (forallb _ _); [|discriminate].
  set (scored := map (fun c => (fst c, euclidean probe (snd c))) others).
  assert (Hpos : 0 <= snd (closest (u0, euclidean probe v0) scored)).
  { destruct (closest_In (u0, euclidean probe v0) scored) as [<-|Hin].
    - apply euclidean_nonneg.
    - apply in_map_iff in Hin as [c [<- _]]. apply euclidean_nonneg. }
  destruct (Rle_dec _ t) as [Hle|Hgt]; intros H; injection H as <-;
    simpl; repeat split; auto; discriminate.
Qed.

Lemma euclidean_scenario :
  euclidean [5 / 100; 0; 0] [0; 0; 0] = 5 / 100.
Proof.
  unfold euclidean. simpl.
  replace ((5 / 100 - 0) * ((5 / 100 - 0) * 1)
           + ((0 - 0) * ((0 - 0) * 1) + ((0 - 0) * ((0 - 0) * 1) + 0)))
    with ((5 / 100) * (5 / 100)) by lra.
  apply sqrt_square. lra.
Qed.

Lemma confidence_scenario : confidence_of (5 / 100) (6 / 10) = 275 / 3.
Proof.
  unfold confidence_of. rewrite clamp01_inside; lra.
Qed.

(** C8. For every tolerance [t > 0]: a matched result carries the
    confidence [clamp01 (1 - d / t) * 100] of its distance [d], with
    [0 <= d <= t], and that confidence lies in [[0, 100]]; the
    confidence is 100 at distance 0 and 0 at distance [t]; it never
    increases with the distance and strictly decreases over the
    distances of matches. In particular, the probe [[0.05, 0, 0]]
    against the one candidate [(U, [0, 0, 0])] with tolerance 0.6 is a
    match of [U] at distance 0.05 with confidence 275/3, which is within
    0.05 of 91.7. *)
Theorem confidence_linear_in_distance :
  (forall t : R,
      0 < t ->
      (forall probe candidates r,
          matchFace probe candidates t = inr r ->
          matched r = true ->
          confidence r = clamp01 (1 - distance r / t) * 100
          /\ 0 <= distance r <= t
          /\ 0 <= confidence r <= 100)
      /\ confidence_of 0 t = 100
      /\ confidence_of t t = 0
      /\ (forall d1 d2, d1 <= d2 ->
                        confidence_of d2 t <= confidence_of d1 t)
      /\ (forall d1 d2, 0 <= d1 -> d1 < d2 -> d2 <= t ->
                        confidence_of d2 t < confidence_of d1 t))
  /\ (forall U : Z,
         matchFace [5 / 100; 0; 0] [(U, [0; 0; 0])] (6 / 10)
         = inr (mkMatch true (Some U) (5 / 100) (275 / 3)))
  /\ Rabs (275 / 3 - 917 / 10) < 5 / 100.
Proof.
  split; [|split].
  - intros t Ht. split; [|split; [|split; [|split]]].
    + intros probe candidates r Hr Hmatched.
      destruct (matched_distance probe candidates t r Hr)
        as [Hconf [Hpos Hle]].
      split; [exact Hconf|]. split; [split; auto|].
      rewrite Hconf. unfold confidence_of.
      pose proof (clamp01_bounds (1 - distance r / t)). lra.
    + unfold confidence_of. rewrite clamp01_inside.
      * unfold Rdiv. lra.
      * unfold Rdiv. lra.
    + unfold confidence_of.
      replace (t / t) with 1 by (field; lra).
      rewrite clamp01_inside; lra.
    + intros d1 d2 H. unfold confidence_of.
      apply Rmult_le_compat_r; [lra|].
      apply clamp01_monotone.
      pose proof (ratio_monotone d1 d2 t Ht H). lra.
    + intros d1 d2 H0 H12 H2t. unfold confidence_of.
      pose proof (ratio_bounds d1 t Ht ltac:(lra)).
      pose proof (ratio_bounds d2 t Ht ltac:(lra)).
      pose proof (ratio_increasing d1 d2 t Ht H12).
      rewrite !clamp01_inside by lra. lra.
  - intros U. unfold matchFace. simpl.
    rewrite euclidean_scenario.
    destruct (Rle_dec (5 / 100) (6 / 10)) as [_|Hgt]; [|exfalso; lra].
    now rewrite confidence_scenario.
  - unfold Rabs. destruct (Rcase_abs _); lra.
Qed.

Lemma confidence_linear_in_distance_witness :
  confidence_of 0 (6 / 10) = 100
  /\ confidence_of (6 / 10) (6 / 10) = 0
  /\ confidence_of (3 / 10) (6 / 10) < confidence_of (5 / 100) (6 / 10).
Proof.
  destruct (proj1 confidence_linear_in_distance (6 / 10) ltac:(lra))
    as [_ [Hzero [Htol [_ Hdec]]]].
  split; [exact Hzero|]. split; [exact Htol|].
  apply Hdec; lra.
Defined.

End MatcherFacts.

(* ------------------------------------------------------------------ *)
(** ** Enrolment: [createUser], [addFaceSample] and their lookups *)
(* ------------------------------------------------------------------ *)

Lemma filter_none {A} (f : A -> bool) (l : list A) :
  (forall x, In x l -> f x = false) -> filter f l = [].
Proof.
  intros H. apply filter_absent.
  destruct (existsb f l) eqn:E; [|reflexivity].
  apply existsb_exists in E as [x [Hx Hf]].
  rewrite (H x Hx) in Hf. discriminate.
Qed.

Lemma email_absent (email0 : string) (users : list UserRow) :
  (forall u, In u users -> usr_email u <> email0) ->
  existsb (fun u => String.eqb (usr_email u) email0) users = false.
Proof.
  intros H. destruct (existsb _ users) eqn:E; [|reflexivity].
  apply existsb_exists in E as [u [Hu He]].
  apply String.eqb_eq in He. now destruct (H u Hu).
Qed.

Lemma createUser_appends (name0 email0 enc : string) (now : DATETIME)
    (db : Database) :
  (forall u, In u (users_v1 db) -> usr_email u <> email0) ->
  createUser name0 email0 enc now db
  = (Returned None,
     set_users db
       (users_v1 db ++
          [mkUser (next_rowid (users_seq db) (map usr_id (users_v1 db)))
             name0 email0 enc now (Some 1)])
       (next_rowid (users_seq db) (map usr_id (users_v1 db)))).
Proof.
  intros Hfresh. unfold createUser.
  now rewrite (email_absent _ _ Hfresh).
Qed.

Lemma getUserById_appended (db db' : Database) (row : UserRow) :
  (forall u, In u (users_v1 db) -> usr_id u < usr_id row) ->
  is_active row = true ->
  users_v1 db' = users_v1 db ++ [row] ->
  getUserById (usr_id row) db' = Some row.
Proof.
  intros Hlt Hact Husers. unfold getUserById.
  rewrite Husers, filter_app. simpl.
  rewrite Z.eqb_refl, Hact. simpl.
  rewrite filter_none; [reflexivity|].
  intros u Hu. specialize (Hlt u Hu).
  destruct (usr_id u =? usr_id row) eqn:E; [|reflexivity].
  apply Z.eqb_eq in E. lia.
Qed.

(** A user created with an email that no row has yet is stored as an
    active row with an id above every id in use, and can be looked up at
    once: by that id, by the email, and among the known faces handed to
    the recognition service; the lookups of the other ids are as before.
    What [createUser] returns, though, is [undefined], not the id. *)
Theorem createUser_lookup :
  forall (name0 email0 enc : string) (now : DATETIME) (db : Database),
    (forall u, In u (users_v1 db) -> usr_email u <> email0) ->
    result (createUser name0 email0 enc now) db = Returned None
    /\ exists userId,
         (forall u, In u (users_v1 db) -> usr_id u < userId)
         /\ users_v1 (exec (createUser name0 email0 enc now) db)
            = users_v1 db ++ [mkUser userId name0 email0 enc now (Some 1)]
         /\ getUserById userId (exec (createUser name0 email0 enc now) db)
            = Some (mkUser userId name0 email0 enc now (Some 1))
         /\ getUserByEmail email0 (exec (createUser name0 email0 enc now) db)
            = Some (mkUser userId name0 email0 enc now (Some 1))
         /\ getAllUserEncodings (exec (createUser name0 email0 enc now) db)
            = getAllUserEncodings db ++ [mkKnownFace userId name0 enc]
         /\ (forall i, i <> userId ->
               getUserById i (exec (createUser name0 email0 enc now) db)
               = getUserById i db).
Proof.
  intros name0 email0 enc now db Hfresh.
  unfold result, exec. rewrite (createUser_appends _ _ _ _ _ Hfresh).
  split; [reflexivity|].
  exists (next_rowid (users_seq db) (map usr_id (users_v1 db))).
  assert (Hlt : forall u, In u (users_v1 db) ->
            usr_id u < next_rowid (users_seq db) (map usr_id (users_v1 db))).
  { intros u Hu. apply next_rowid_fresh. now apply in_map. }
  split; [exact Hlt|]. split; [reflexivity|].
  unfold getUserById, getUserByEmail, getAllUserEncodings. simpl.
  rewrite !filter_app. simpl.
  rewrite Z.eqb_refl, String.eqb_refl. simpl.
  repeat split.
  - rewrite filter_none; [reflexivity|].
    intros u Hu. specialize (Hlt u Hu).
    destruct (usr_id u =? _) eqn:E; [|reflexivity].
    apply Z.eqb_eq in E. lia.
  - rewrite filter_none; [reflexivity|].
    intros u Hu.
    destruct (String.eqb (usr_email u) email0) eqn:E; [|reflexivity].
    apply String.eqb_eq in E. now destruct (Hfresh u Hu).
  - now rewrite map_app.
  - intros i Hi. rewrite filter_app. simpl.
    destruct (next_rowid (users_seq db) (map usr_id (users_v1 db)) =? i)
      eqn:E; [apply Z.eqb_eq in E; congruence|].
    simpl. now rewrite app_nil_r.
Qed.

Lemma createUser_lookup_witness :
  result (createUser "Bob" "bob@example.com" "[1,1,1]" 50) one_user
  = Returned None
  /\ exists userId,
       (forall u, In u (users_v1 one_user) -> usr_id u < userId)
       /\ users_v1
            (exec (createUser "Bob" "bob@example.com" "[1,1,1]" 50) one_user)
          = users_v1 one_user
            ++ [mkUser userId "Bob" "bob@example.com" "[1,1,1]" 50 (Some 1)]
       /\ getUserById userId
            (exec (createUser "Bob" "bob@example.com" "[1,1,1]" 50) one_user)
          = Some (mkUser userId "Bob" "bob@example.com" "[1,1,1]" 50 (Some 1))
       /\ getUserByEmail "bob@example.com"
            (exec (createUser "Bob" "bob@example.com" "[1,1,1]" 50) one_user)
          = Some (mkUser userId "Bob" "bob@example.com" "[1,1,1]" 50 (Some 1))
       /\ getAllUserEncodings
            (exec (createUser "Bob" "bob@example.com" "[1,1,1]" 50) one_user)
          = getAllUserEncodings one_user
            ++ [mkKnownFace userId "Bob" "[1,1,1]"]
       /\ (forall i, i <> userId ->
             getUserById i
               (exec (createUser "Bob" "bob@example.com" "[1,1,1]" 50)
                  one_user)
             = getUserById i one_user).
Proof.
  apply (createUser_lookup "Bob" "bob@example.com" "[1,1,1]" 50 one_user).
  intros u [<-|[]]. discriminate.
Defined.

(** A face sample added for a user is the last of the samples read back
    for that user, and the samples of the other users are as before. When
    foreign keys are enforced and the id names no user, the insert throws
    and stores nothing. *)
Theorem addFaceSample_lookup :
  forall (userId : Z) (img enc : string) (now : DATETIME) (db : Database),
    (foreign_keys db && negb (user_known db userId) = false ->
     result (addFaceSample userId img enc now) db = Returned tt
     /\ getFaceSamples userId (exec (addFaceSample userId img enc now) db)
        = getFaceSamples userId db ++ [enc]
     /\ forall other, other <> userId ->
          getFaceSamples other (exec (addFaceSample userId img enc now) db)
          = getFaceSamples other db)
    /\ (foreign_keys db && negb (user_known db userId) = true ->
        result (addFaceSample userId img enc now) db
        = Thrown SQLITE_CONSTRAINT_FOREIGNKEY
        /\ exec (addFaceSample userId img enc now) db = db).
Proof.
  intros userId img enc now db.
  unfold result, exec, addFaceSample, getFaceSamples.
  split; intros Hfk; rewrite Hfk; simpl; [|auto].
  split; [reflexivity|]. rewrite !filter_app, !map_app. simpl.
  rewrite Z.eqb_refl. simpl. split; [reflexivity|].
  intros other Hother.
  rewrite filter_app, map_app. simpl.
  destruct (userId =? other) eqn:E; [apply Z.eqb_eq in E; congruence|].
  simpl. now rewrite app_nil_r.
Qed.

Lemma addFaceSample_lookup_witness :
  getFaceSamples 1 (exec (addFaceSample 1 "image" "[0,0,0]" 60) one_user)
  = getFaceSamples 1 one_user ++ ["[0,0,0]"%string].
Proof.
  destruct (addFaceSample_lookup 1 "image" "[0,0,0]" 60 one_user)
    as [Hok _].
  destruct (Hok eq_refl) as [_ [Hread _]]. exact Hread.
Defined.

(* ------------------------------------------------------------------ *)
(** ** Registration: [/register] as a whole *)
(* ------------------------------------------------------------------ *)

Lemma encode_images_length (encode : string -> ProcessOutput EncodeResult)
    (images encodings : list string) :
  encode_images encode images = inr encodings ->
  List.length encodings = List.length images.
Proof.
  revert encodings. induction images as [|img images IH]; simpl;
    intros encodings H.
  - injection H as <-. reflexivity.
  - destruct (encode img) as [| |r]; try discriminate.
    destruct (negb (enc_success r)); [discriminate|].
    destruct (encode_images encode images) as [resp|encs]; [discriminate|].
    injection H as <-. simpl. f_equal. now apply IH.
Qed.

Lemma no_row_no_active_user (email0 : string) (db : Database) :
  (forall u, In u (users_v1 db) -> usr_email u <> email0) ->
  getUserByEmail email0 db = None.
Proof.
  intros H. unfold getUserByEmail. rewrite filter_none; [reflexivity|].
  intros u Hu.
  destruct (String.eqb (usr_email u) email0) eqn:E; [|reflexivity].
  apply String.eqb_eq in E. now destruct (H u Hu).
Qed.

(** With [undefined] for the user, the loop throws at the first sample
    and stores nothing. *)
Lemma add_face_samples_undefined (sample : string * string)
    (samples : list (string * string)) (now : DATETIME) (db : Database) :
  add_face_samples None (sample :: samples) now db
  = (Thrown SQLITE_CONSTRAINT_NOTNULL, db).
Proof. destruct sample. reflexivity. Qed.

(** What [/register] does with a complete request whose email no row has
    and whose images are all encoded: the user row is stored, the first
    [addFaceSample] throws, the outer [catch] answers. *)
Lemma register_new_email (encode : string -> ProcessOutput EncodeResult)
    (data : RegistrationData) (now : DATETIME) (db : Database)
    (primary : string) (encodings : list string) :
  well_formed data ->
  (forall u, In u (users_v1 db) -> usr_email u <> email data) ->
  encode_images encode (face_images data) = inr (primary :: encodings) ->
  register encode data now db
  = (json 500 (Message false "Failed to register user"),
     set_users db
       (users_v1 db ++
          [mkUser (next_rowid (users_seq db) (map usr_id (users_v1 db)))
             (name data) (email data) primary now (Some 1)])
       (next_rowid (users_seq db) (map usr_id (users_v1 db)))).
Proof.
  intros Hwf Hfresh Henc.
  assert (Himgs : exists img imgs, face_images data = img :: imgs).
  { destruct Hwf as [_ [_ Himgs]].
    destruct (face_images data) as [|img imgs]; [congruence|eauto]. }
  apply validation_well_formed in Hwf.
  unfold register, handle, bind, query, ret.
  rewrite Hwf. simpl.
  rewrite (no_row_no_active_user _ _ Hfresh), Henc.
  rewrite (createUser_appends _ _ primary now db Hfresh).
  destruct Himgs as [img [imgs ->]]. simpl combine.
  now rewrite add_face_samples_undefined.
Qed.

(** A registration request that passes the validation, whose email no
    row has yet and whose images are all encoded, does store the user: one
    active row with a fresh id, the name, the email and the encoding of
    the first image. But [createUser] returns [undefined], so the first
    [addFaceSample] throws: no face sample is stored and the request is
    answered with status 500. The ledger is untouched. The stored user
    can be fetched by its id, is handed to the recognition service on the
    next check-in, counts in the total, and the same request sent again is
    answered with status 409. *)
Theorem register_stores_user_without_samples :
  forall (encode : string -> ProcessOutput EncodeResult)
         (data : RegistrationData) (now : DATETIME) (db : Database)
         (encodings : list string),
    well_formed data ->
    (forall u, In u (users_v1 db) -> usr_email u <> email data) ->
    encode_images encode (face_images data) = inr encodings ->
    exists userId primary,
      hd_error encodings = Some primary
      /\ fst (register encode data now db)
         = json 500 (Message false "Failed to register user")
      /\ (forall u, In u (users_v1 db) -> usr_id u < userId)
      /\ users_v1 (snd (register encode data now db))
         = users_v1 db
           ++ [mkUser userId (name data) (email data) primary now (Some 1)]
      /\ face_samples_v1 (snd (register encode data now db))
         = face_samples_v1 db
      /\ attendance_v1 (snd (register encode data now db)) = attendance_v1 db
      /\ get_user (Some userId) (snd (register encode data now db))
         = (200, UserFound (mkListing userId (name data) (email data) now
                              (Some 1)))
      /\ getAllUserEncodings (snd (register encode data now db))
         = getAllUserEncodings db ++ [mkKnownFace userId (name data) primary]
      /\ total_users (getAttendanceStats now (snd (register encode data now db)))
         = S (total_users (getAttendanceStats now db))
      /\ (forall later,
            register encode data later (snd (register encode data now db))
            = (json 409 (Message false "User with this email already exists"),
               snd (register encode data now db))).
Proof.
  intros encode data now db encodings Hwf Hfresh Henc.
  pose proof (encode_images_length _ _ _ Henc) as Hlen.
  destruct encodings as [|primary encodings].
  { destruct Hwf as [_ [_ Himgs]].
    destruct (face_images data); [congruence|discriminate]. }
  set (userId := next_rowid (users_seq db) (map usr_id (users_v1 db))).
  assert (Hlt : forall u, In u (users_v1 db) -> usr_id u < userId).
  { intros u Hu. apply next_rowid_fresh. now apply in_map. }
  exists userId, primary. split; [reflexivity|].
  rewrite (register_new_email encode data now db primary encodings
             Hwf Hfresh Henc).
  fold userId. set (db1 := set_users db _ userId).
  assert (Hget : getUserById userId db1
                 = Some (mkUser userId (name data) (email data) primary now
                           (Some 1))).
  { apply (getUserById_appended db db1
             (mkUser userId (name data) (email data) primary now (Some 1)));
      [exact Hlt|reflexivity|reflexivity]. }
  cbn [fst snd].
  split; [reflexivity|]. split; [exact Hlt|]. split; [reflexivity|].
  split; [reflexivity|]. split; [reflexivity|].
  split; [unfold get_user; now rewrite Hget|].
  split; [|split].
  - unfold getAllUserEncodings, db1. cbn [users_v1 set_users].
    rewrite filter_app, map_app. reflexivity.
  - unfold getAttendanceStats, db1. cbn [total_users users_v1 set_users].
    rewrite filter_app, length_app. simpl. lia.
  - intros later.
    assert (Hexisting : getUserByEmail (email data) db1
                        = Some (mkUser userId (name data) (email data)
                                  primary now (Some 1))).
    { unfold getUserByEmail, db1. cbn [users_v1 set_users].
      rewrite filter_app. simpl. rewrite String.eqb_refl. simpl.
      rewrite filter_none; [reflexivity|].
      intros u Hu.
      destruct (String.eqb (usr_email u) (email data)) eqn:E;
        [|reflexivity].
      apply String.eqb_eq in E. now destruct (Hfresh u Hu). }
    apply validation_well_formed in Hwf.
    unfold register, handle, bind, query, ret.
    rewrite Hwf. simpl. now rewrite Hexisting.
Qed.

Lemma register_stores_user_without_samples_witness :
  exists userId primary,
    hd_error ["[0,0,0]"; "[0,0,0]"]%string = Some primary
    /\ fst (register encode_any bob 100 one_user)
       = json 500 (Message false "Failed to register user")
    /\ (forall u, In u (users_v1 one_user) -> usr_id u < userId)
    /\ users_v1 (snd (register encode_any bob 100 one_user))
       = users_v1 one_user
         ++ [mkUser userId (name bob) (email bob) primary 100 (Some 1)]
    /\ face_samples_v1 (snd (register encode_any bob 100 one_user))
       = face_samples_v1 one_user
    /\ attendance_v1 (snd (register encode_any bob 100 one_user))
       = attendance_v1 one_user
    /\ get_user (Some userId) (snd (register encode_any bob 100 one_user))
       = (200, UserFound (mkListing userId (name bob) (email bob) 100
                            (Some 1)))
    /\ getAllUserEncodings (snd (register encode_any bob 100 one_user))
       = getAllUserEncodings one_user
         ++ [mkKnownFace userId (name bob) primary]
    /\ total_users
         (getAttendanceStats 100 (snd (register encode_any bob 100 one_user)))
       = S (total_users (getAttendanceStats 100 one_user))
    /\ (forall later,
          register encode_any bob later
            (snd (register encode_any bob 100 one_user))
          = (json 409 (Message false "User with this email already exists"),
             snd (register encode_any bob 100 one_user))).
Proof.
  apply (register_stores_user_without_samples encode_any bob 100 one_user
           ["[0,0,0]"; "[0,0,0]"]%string).
  - repeat split; discriminate.
  - intros u [<-|[]]. discriminate.
  - reflexivity.
Defined.

Lemma users_appended_differ (db : Database) (row : UserRow) (seq : Z) :
  set_users db (users_v1 db ++ [row]) seq <> db.
Proof.
  intros H. apply (f_equal (fun d => List.length (users_v1 d))) in H.
  simpl in H. rewrite length_app in H. simpl in H. lia.
Qed.

(** [/register] never completes: for every request and every answer of
    the encoding command it stores no face sample, leaves the ledger
    alone and never answers with the success response. It changes the
    database exactly when the request passes the validation, no row has
    its email and every image is encoded; the change is then the one user
    row. *)
Theorem register_never_completes :
  forall (encode : string -> ProcessOutput EncodeResult)
         (data : RegistrationData) (now : DATETIME) (db : Database),
    face_samples_v1 (snd (register encode data now db)) = face_samples_v1 db
    /\ attendance_v1 (snd (register encode data now db)) = attendance_v1 db
    /\ (forall message userId,
          body (fst (register encode data now db))
          <> Registered message userId)
    /\ (snd (register encode data now db) <> db <->
        well_formed data
        /\ (forall u, In u (users_v1 db) -> usr_email u <> email data)
        /\ exists encodings,
             encode_images encode (face_images data) = inr encodings).
Proof.
  intros encode data now db.
  destruct (negb (truthy (name data)) || negb (truthy (email data))
            || (List.length (face_images data) =? 0)%nat) eqn:Hvalid.
  { assert (Hsame : register encode data now db
                    = (json 400
                         (Message false
                            "Name, email, and at least one face image are required"),
                       db)).
    { unfold register, handle, bind, query, ret. now rewrite Hvalid. }
    rewrite Hsame. cbn [fst snd body].
    repeat split; try discriminate; try congruence.
    intros [Hwf _]. apply validation_well_formed in Hwf. congruence. }
  assert (Hwf : well_formed data) by now apply validation_well_formed.
  destruct (existsb (fun u => String.eqb (usr_email u) (email data))
              (users_v1 db)) eqn:Hrow.
  { assert (Hsame : snd (register encode data now db) = db
                    /\ forall message userId,
                         body (fst (register encode data now db))
                         <> Registered message userId).
    { unfold register, handle, bind, query, ret. rewrite Hvalid. simpl.
      destruct (getUserByEmail (email data) db); simpl;
        [split; [reflexivity|discriminate]|].
      destruct (encode_images encode (face_images data))
        as [response|[|primary encodings]] eqn:Henc; simpl.
      - split; [reflexivity|].
        clear - Henc. revert response Henc.
        induction (face_images data) as [|img imgs IH]; simpl;
          intros response Henc; [discriminate|].
        destruct (encode img) as [| |r]; try (injection Henc as <-;
                                              discriminate).
        destruct (negb (enc_success r));
          [injection Henc as <-; discriminate|].
        destruct (encode_images encode imgs) as [resp|encs];
          [|discriminate].
        injection Henc as <-. now apply IH.
      - split; [reflexivity|discriminate].
      - unfold createUser. rewrite Hrow.
        split; [reflexivity|discriminate]. }
    destruct Hsame as [Hdb Hbody]. rewrite Hdb.
    repeat split; try exact Hbody; try congruence.
    intros [_ [Hfresh _]]. rewrite (email_absent _ _ Hfresh) in Hrow.
    discriminate. }
  assert (Hfresh : forall u, In u (users_v1 db) -> usr_email u <> email data).
  { intros u Hu He.
    assert (existsb (fun v => String.eqb (usr_email v) (email data))
              (users_v1 db) = true); [|congruence].
    apply existsb_exists. exists u. split; [exact Hu|].
    now apply String.eqb_eq. }
  destruct (encode_images encode (face_images data))
    as [response|encodings] eqn:Henc.
  { assert (Hsame : snd (register encode data now db) = db
                    /\ fst (register encode data now db) = response).
    { unfold register, handle, bind, query, ret. rewrite Hvalid. simpl.
      rewrite (no_row_no_active_user _ _ Hfresh), Henc. auto. }
    destruct Hsame as [Hdb Hfst]. rewrite Hdb, Hfst.
    repeat split; try congruence.
    - clear - Henc. revert response Henc.
      induction (face_images data) as [|img imgs IH]; simpl;
        intros response Henc; [discriminate|].
      destruct (encode img) as [| |r]; try (injection Henc as <-;
                                            discriminate).
      destruct (negb (enc_success r));
        [injection Henc as <-; discriminate|].
      destruct (encode_images encode imgs) as [resp|encs];
        [|discriminate].
      injection Henc as <-. now apply IH.
    - intros [_ [_ [encs Hencs]]]. discriminate. }
  pose proof (encode_images_length _ _ _ Henc) as Hlen.
  destruct encodings as [|primary encodings].
  { destruct Hwf as [_ [_ Himgs]].
    destruct (face_images data); [congruence|discriminate]. }
  rewrite (register_new_email encode data now db primary encodings
             Hwf Hfresh Henc).
  cbn [fst snd body].
  split; [reflexivity|]. split; [reflexivity|].
  split; [discriminate|]. split.
  - intros _. split; [exact Hwf|]. split; [exact Hfresh|]. eauto.
  - intros _. apply users_appended_differ.
Qed.

(** An email held by a deactivated user cannot be registered again: the
    handler finds no active user with it and goes on, the insert throws on
    [email UNIQUE], and a complete request whose images are all encoded is
    answered with status 500 and leaves the database as it was. *)
Theorem register_email_of_deactivated_user :
  forall (encode : string -> ProcessOutput EncodeResult)
         (data : RegistrationData) (now : DATETIME) (db : Database)
         (encodings : list string) (u : UserRow),
    well_formed data ->
    In u (users_v1 db) ->
    usr_email u = email data ->
    getUserByEmail (email data) db = None ->
    encode_images encode (face_images data) = inr encodings ->
    register encode data now db
    = (json 500 (Message false "Failed to register user"), db).
Proof.
  intros encode data now db encodings u Hwf Hu Hemail Hnone Henc.
  pose proof (encode_images_length _ _ _ Henc) as Hlen.
  destruct encodings as [|primary encodings].
  { destruct Hwf as [_ [_ Himgs]].
    destruct (face_images data); [congruence|discriminate]. }
  apply validation_well_formed in Hwf.
  unfold register, handle, bind, query, ret.
  rewrite Hwf. simpl. rewrite Hnone, Henc.
  unfold createUser.
  assert (Hex : existsb (fun v => String.eqb (usr_email v) (email data))
                  (users_v1 db) = true).
  { apply existsb_exists. exists u. split; [exact Hu|].
    now apply String.eqb_eq. }
  rewrite Hex. reflexivity.
Qed.

Lemma register_email_of_deactivated_user_witness :
  register encode_any duplicate 100 alice_deactivated
  = (json 500 (Message false "Failed to register user"), alice_deactivated).
Proof.
  apply (register_email_of_deactivated_user encode_any duplicate 100
           alice_deactivated ["[0,0,0]"%string]
           (mkUser 1 "Alice" "alice@example.com" "[0,0,0]" 0 (Some 0))).
  - repeat split; discriminate.
  - left. reflexivity.
  - reflexivity.
  - reflexivity.
  - reflexivity.
Defined.

(* ------------------------------------------------------------------ *)
(** ** The ledger across users and days *)
(* ------------------------------------------------------------------ *)

Lemma filter_map_elsewhere {A} (f cond : A -> bool) (g : A -> A)
    (l : list A) :
  (forall x, f (g x) = f x) ->
  (forall x, cond x = true -> f x = false) ->
  filter f (map (fun x => if cond x then g x else x) l) = filter f l.
Proof.
  intros Hg Hc. induction l as [|x l IH]; simpl; [reflexivity|].
  destruct (cond x) eqn:Hx.
  - rewrite Hg, (Hc x Hx). exact IH.
  - destruct (f x); now rewrite IH.
Qed.

Lemma same_user_date_other (u u' : Z) (d d' : DATE) (r : AttendanceRow) :
  (u', d') <> (u, d) ->
  same_user_date u d r = true -> same_user_date u' d' r = false.
Proof.
  intros Hne H. apply same_user_date_key in H.
  destruct (same_user_date u' d' r) eqn:E; [|reflexivity].
  apply same_user_date_key in E. congruence.
Qed.

(** A check-in or a check-out of one user on one day leaves the rows of
    every other user, and of the same user on every other day, exactly as
    they were: yesterday's record is neither refreshed by a check-in nor
    closed by a check-out of today. *)
Theorem ledger_call_other_rows :
  forall (call : LedgerCall) (now : DATETIME) (db : Database)
         (userId' : Z) (day' : DATE),
    (userId', day')
    <> (match call with CheckIn u _ => u | CheckOut u => u end, date_of now) ->
    rows_of userId' day' (exec (ledger_call call now) db)
    = rows_of userId' day' db.
Proof.
  intros [userId c|userId] now db userId' day' Hne; unfold rows_of;
    cbn [ledger_call].
  - destruct (existsb (same_user_date userId (date_of now))
                (attendance_v1 db)) eqn:Hex.
    + rewrite recordCheckIn_update by assumption. simpl.
      apply filter_map_elsewhere; [reflexivity|].
      intros r. now apply same_user_date_other.
    + destruct (foreign_keys db && negb (user_known db userId)) eqn:Hfk.
      * now rewrite recordCheckIn_rejected.
      * rewrite recordCheckIn_insert by assumption. simpl.
        rewrite filter_app. simpl.
        rewrite (same_user_date_other userId userId' (date_of now) day');
          [apply app_nil_r|exact Hne|].
        apply same_user_date_key. reflexivity.
  - rewrite recordCheckOut_rows.
    apply filter_map_elsewhere; [reflexivity|].
    intros r Hr. apply andb_true_iff in Hr as [Hr _].
    now apply (same_user_date_other userId userId' (date_of now) day').
Qed.

Lemma ledger_call_other_rows_witness :
  rows_of 1 0 (exec (ledger_call (CheckOut 1) 86500) checked_out)
  = rows_of 1 0 checked_out.
Proof.
  apply (ledger_call_other_rows (CheckOut 1) 86500 checked_out 1 0).
  discriminate.
Defined.

(** A first check-in of the day followed by a check-out later that day
    leaves one row for the user and day: it has the time and confidence
    of the check-in and the time of the check-out. *)
Theorem check_in_then_check_out :
  forall (db : Database) (userId : Z) (c : Q) (t_in t_out : DATETIME),
    (foreign_keys db = true -> user_known db userId = true) ->
    rows_of userId (date_of t_in) db = [] ->
    date_of t_out = date_of t_in ->
    exists rowid,
      rows_of userId (date_of t_in)
        (exec (recordCheckOut userId t_out)
           (exec (recordCheckIn userId c t_in) db))
      = [mkAttendance rowid userId t_in (Some t_out) (date_of t_in) c]
      /\ forall r, In r (attendance_v1 db) -> att_id r < rowid.
Proof.
  intros db userId c t_in t_out Hfk Hnone Hday.
  exists (next_rowid (attendance_seq db) (map att_id (attendance_v1 db))).
  split; [|intros r Hr; apply next_rowid_fresh; now apply in_map].
  assert (Hex : existsb (same_user_date userId (date_of t_in))
                  (attendance_v1 db) = false).
  { destruct (existsb _ (attendance_v1 db)) eqn:E; [|reflexivity].
    apply existsb_exists in E as [r [Hr Hsame]].
    assert (Hin : In r (rows_of userId (date_of t_in) db))
      by (apply filter_In; auto).
    rewrite Hnone in Hin. destruct Hin. }
  assert (Hok : foreign_keys db && negb (user_known db userId) = false).
  { destruct (foreign_keys db); simpl; [|reflexivity]. now rewrite Hfk. }
  unfold rows_of in *. rewrite recordCheckOut_rows.
  rewrite recordCheckIn_insert by assumption. simpl.
  rewrite Hday, map_app, filter_app. simpl.
  rewrite filter_map_update; [|reflexivity|].
  - rewrite Hnone. simpl.
    unfold same_user_date. simpl. rewrite !Z.eqb_refl. reflexivity.
  - intros r Hr. now apply andb_true_iff in Hr as [Hr _].
Qed.

Lemma check_in_then_check_out_witness :
  exists rowid,
    rows_of 1 (date_of 100)
      (exec (recordCheckOut 1 200) (exec (recordCheckIn 1 (90 # 1) 100)
                                      one_user))
    = [mkAttendance rowid 1 100 (Some 200) (date_of 100) (90 # 1)]
    /\ forall r, In r (attendance_v1 one_user) -> att_id r < rowid.
Proof.
  apply (check_in_then_check_out one_user 1 (90 # 1) 100 200).
  - intros _. reflexivity.
  - reflexivity.
  - reflexivity.
Defined.

(** A second check-out on the same day changes nothing, whatever the
    ledger holds: the two calls leave the database the first one left. *)
Theorem recordCheckOut_twice :
  forall (db : Database) (userId : Z) (t1 t2 : DATETIME),
    date_of t2 = date_of t1 ->
    exec (recordCheckOut userId t2) (exec (recordCheckOut userId t1) db)
    = exec (recordCheckOut userId t1) db.
Proof.
  intros db userId t1 t2 Hday.
  unfold exec, recordCheckOut, update_attendance. simpl.
  unfold set_attendance. simpl. f_equal.
  rewrite Hday, map_map. apply map_ext. intros r.
  destruct (same_user_date userId (date_of t1) r
            && is_null (att_check_out_time r)) eqn:E.
  - simpl. now rewrite andb_false_r.
  - now rewrite E.
Qed.

Lemma recordCheckOut_twice_witness :
  exec (recordCheckOut 1 250) (exec (recordCheckOut 1 200) checked_out)
  = exec (recordCheckOut 1 200) checked_out.
Proof.
  apply (recordCheckOut_twice checked_out 1 200 250). reflexivity.
Defined.

(* ------------------------------------------------------------------ *)
(** ** The handlers [/checkin] and [/checkout] as a whole *)
(* ------------------------------------------------------------------ *)

(** [/checkin] for a recognised user: when the request carries image
    data, some user is active and the recognition service prints a
    successful result with a user id that is not 0, the handler performs
    exactly one [recordCheckIn] of that id with the confidence of the
    result and answers with status 200 and the welcome message. In every
    other case the database is left as it was and the answer is not a
    recorded check-in. *)
Theorem checkin_effect :
  forall (recognize : string -> list KnownFace ->
                      ProcessOutput FaceRecognitionResult)
         (image_data : string) (now : DATETIME) (db : Database),
    (forall r userId,
        image_data <> ""%string ->
        getAllUserEncodings db <> [] ->
        recognize image_data (getAllUserEncodings db) = Stdout r ->
        fr_success r = true ->
        fr_user_id r = Some userId ->
        userId <> 0 ->
        snd (checkin recognize image_data now db)
        = exec (recordCheckIn userId (fr_confidence r) now) db
        /\ fst (checkin recognize image_data now db)
           = json 200
               (Recorded userId (fr_user_name r) (fr_confidence r)
                  ("Welcome " ++ show_name (fr_user_name r)
                   ++ "! Attendance recorded.")
                  now))
    /\ ((exists r userId,
            image_data <> ""%string
            /\ getAllUserEncodings db <> []
            /\ recognize image_data (getAllUserEncodings db) = Stdout r
            /\ fr_success r = true
            /\ fr_user_id r = Some userId /\ userId <> 0)
        \/ (snd (checkin recognize image_data now db) = db
            /\ forall u n c m t,
                 body (fst (checkin recognize image_data now db))
                 <> Recorded u n c m t)).
Proof.
  intros recognize image_data now db. split.
  - intros r userId Himg Hfaces Hrec Hsucc Hid Hnz.
    unfold checkin, handle, bind, query, ret.
    apply truthy_nonempty in Himg. rewrite Himg. simpl.
    destruct (getAllUserEncodings db) as [|face faces]; [congruence|].
    simpl. rewrite Hrec, Hsucc. simpl. rewrite Hid. simpl.
    apply Z.eqb_neq in Hnz. rewrite Hnz.
    pose proof (recordCheckIn_returns userId (fr_confidence r) now db)
      as Hret.
    unfold result, exec in *.
    destruct (recordCheckIn userId (fr_confidence r) now db)
      as [[[]|e] db']; simpl in *; [|discriminate].
    split; reflexivity.
  - unfold checkin, handle, bind, query, ret.
    destruct (truthy image_data) eqn:Himg; simpl;
      [|right; split; [reflexivity|discriminate]].
    destruct (getAllUserEncodings db) as [|face faces] eqn:Hfaces; simpl;
      [right; split; [reflexivity|discriminate]|].
    destruct (recognize image_data (face :: faces)) as [| |r] eqn:Hrec;
      simpl; try (right; split; [reflexivity|discriminate]).
    destruct (fr_success r) eqn:Hsucc; simpl;
      [|right; split; [reflexivity|discriminate]].
    destruct (fr_user_id r) as [userId|] eqn:Hid; simpl;
      [|right; split; [reflexivity|discriminate]].
    destruct (userId =? 0) eqn:Hzero; simpl;
      [right; split; [reflexivity|discriminate]|].
    left. exists r, userId.
    apply truthy_nonempty in Himg. apply Z.eqb_neq in Hzero.
    repeat split; auto. discriminate.
Qed.

Lemma checkin_effect_witness :
  snd (checkin recognize_alice "image" 300 one_user)
  = exec (recordCheckIn 1 (92 # 1) 300) one_user
  /\ fst (checkin recognize_alice "image" 300 one_user)
     = json 200
         (Recorded 1 (Some "Alice"%string) (92 # 1)
            "Welcome Alice! Attendance recorded." 300).
Proof.
  destruct (checkin_effect recognize_alice "image" 300 one_user)
    as [Hrecorded _].
  apply (Hrecorded
           (mkRecognition true (Some 1) (Some "Alice"%string) (92 # 1)
              "Face recognized"%string) 1);
    try reflexivity; discriminate.
Defined.

Lemma recordCheckOut_nothing_open (userId : Z) (now : DATETIME)
    (db : Database) :
  (forall r, In r (rows_of userId (date_of now) db) ->
             att_check_out_time r <> None) ->
  exec (recordCheckOut userId now) db = db.
Proof.
  intros Hnone.
  assert (Hrows : attendance_v1 (exec (recordCheckOut userId now) db)
                  = attendance_v1 db).
  { rewrite recordCheckOut_rows.
    rewrite <- (map_id (attendance_v1 db)) at 2.
    apply map_ext_in. intros r Hr.
    destruct (same_user_date userId (date_of now) r) eqn:Hsame;
      [|reflexivity].
    assert (Hin : In r (rows_of userId (date_of now) db))
      by (apply filter_In; auto).
    specialize (Hnone r Hin).
    destruct (att_check_out_time r); [reflexivity|congruence]. }
  unfold exec, recordCheckOut, update_attendance in *. simpl in *.
  rewrite Hrows. apply set_attendance_same.
Qed.

(** [/checkout] answers a recognised user with status 200 and the
    message that the check-out was recorded, and the database it leaves is
    the one [recordCheckOut] leaves. In particular, when that user has no
    row for today, or has checked out already, the answer is the same
    success while nothing is recorded. *)
Theorem checkout_reports_success :
  forall (recognize : string -> list KnownFace ->
                      ProcessOutput FaceRecognitionResult)
         (image_data : string) (now : DATETIME) (db : Database)
         (r : FaceRecognitionResult) (userId : Z),
    image_data <> ""%string ->
    getAllUserEncodings db <> [] ->
    recognize image_data (getAllUserEncodings db) = Stdout r ->
    fr_success r = true ->
    fr_user_id r = Some userId ->
    userId <> 0 ->
    fst (checkout recognize image_data now db)
    = json 200
        (Recorded userId (fr_user_name r) (fr_confidence r)
           ("Goodbye " ++ show_name (fr_user_name r)
            ++ "! Check-out recorded.")
           now)
    /\ snd (checkout recognize image_data now db)
       = exec (recordCheckOut userId now) db
    /\ ((forall row, In row (rows_of userId (date_of now) db) ->
                     att_check_out_time row <> None) ->
        snd (checkout recognize image_data now db) = db).
Proof.
  intros recognize image_data now db r userId Himg Hfaces Hrec Hsucc Hid Hnz.
  assert (Hfst : fst (checkout recognize image_data now db)
                 = json 200
                     (Recorded userId (fr_user_name r) (fr_confidence r)
                        ("Goodbye " ++ show_name (fr_user_name r)
                         ++ "! Check-out recorded.")
                        now)
                 /\ snd (checkout recognize image_data now db)
                    = exec (recordCheckOut userId now) db).
  { unfold checkout, handle, bind, query, ret.
    apply truthy_nonempty in Himg. rewrite Himg. simpl.
    destruct (getAllUserEncodings db) as [|face faces]; [congruence|].
    simpl. rewrite Hrec, Hsucc. simpl. rewrite Hid. simpl.
    apply Z.eqb_neq in Hnz. rewrite Hnz. split; reflexivity. }
  destruct Hfst as [Hfst Hsnd].
  split; [exact Hfst|]. split; [exact Hsnd|].
  intros Hnone. rewrite Hsnd. now apply recordCheckOut_nothing_open.
Qed.

Lemma checkout_reports_success_witness :
  fst (checkout recognize_alice "image" 300 one_user)
  = json 200
      (Recorded 1 (Some "Alice"%string) (92 # 1)
         "Goodbye Alice! Check-out recorded." 300)
  /\ snd (checkout recognize_alice "image" 300 one_user) = one_user.
Proof.
  destruct (checkout_reports_success recognize_alice "image" 300 one_user
              (mkRecognition true (Some 1) (Some "Alice"%string) (92 # 1)
                 "Face recognized"%string) 1)
    as [Hfst [_ Hnoop]];
    try reflexivity; try discriminate.
  split; [exact Hfst|]. apply Hnoop. intros row [].
Defined.

(* ------------------------------------------------------------------ *)
(** ** The service as a whole: what every request keeps *)
(* ------------------------------------------------------------------ *)

Lemma NoDup_snoc {A} (l : list A) (x : A) :
  NoDup l -> ~ In x l -> NoDup (l ++ [x]).
Proof.
  intros Hnd Hx. apply NoDup_app_remove_l with (l := []). simpl.
  eapply Permutation_NoDup; [apply Permutation_cons_append|].
  now constructor.
Qed.

Lemma checkin_database
    (recognize : string -> list KnownFace ->
                 ProcessOutput FaceRecognitionResult)
    (image_data : string) (now : DATETIME) (db : Database) :
  snd (checkin recognize image_data now db) = db
  \/ exists userId c,
       snd (checkin recognize image_data now db)
       = exec (recordCheckIn userId c now) db.
Proof.
  unfold checkin, handle, bind, query, ret.
  destruct (truthy image_data); simpl; [|now left].
  destruct (getAllUserEncodings db) as [|face faces]; simpl; [now left|].
  destruct (recognize image_data (face :: faces)) as [| |r]; simpl;
    try now left.
  destruct (fr_success r); simpl; [|now left].
  destruct (truthy_id (fr_user_id r)) as [userId|]; simpl; [|now left].
  right. exists userId, (fr_confidence r). unfold exec.
  destruct (recordCheckIn userId (fr_confidence r) now db) as [[[]|e] db'];
    reflexivity.
Qed.

Lemma checkout_database
    (recognize : string -> list KnownFace ->
                 ProcessOutput FaceRecognitionResult)
    (image_data : string) (now : DATETIME) (db : Database) :
  snd (checkout recognize image_data now db) = db
  \/ exists userId,
       snd (checkout recognize image_data now db)
       = exec (recordCheckOut userId now) db.
Proof.
  unfold checkout, handle, bind, query, ret.
  destruct (truthy image_data); simpl; [|now left].
  destruct (getAllUserEncodings db) as [|face faces]; simpl; [now left|].
  destruct (recognize image_data (face :: faces)) as [| |r]; simpl;
    try now left.
  destruct (fr_success r); simpl; [|now left].
  destruct (truthy_id (fr_user_id r)) as [userId|]; simpl; [|now left].
  right. exists userId. reflexivity.
Qed.

Lemma register_database (encode : string -> ProcessOutput EncodeResult)
    (data : RegistrationData) (now : DATETIME) (db : Database) :
  snd (register encode data now db) = db
  \/ exists primary,
       (forall u, In u (users_v1 db) -> usr_email u <> email data)
       /\ snd (register encode data now db)
          = set_users db
              (users_v1 db ++
                 [mkUser
                    (next_rowid (users_seq db) (map usr_id (users_v1 db)))
                    (name data) (email data) primary now (Some 1)])
              (next_rowid (users_seq db) (map usr_id (users_v1 db))).
Proof.
  unfold register, handle, bind, query, ret.
  destruct (negb (truthy (name data)) || negb (truthy (email data))
            || (List.length (face_images data) =? 0)%nat);
    simpl; [now left|].
  destruct (getUserByEmail (email data) db); simpl; [now left|].
  destruct (encode_images encode (face_images data))
    as [response|[|primary encodings]]; simpl; [now left|now left|].
  unfold createUser.
  destruct (existsb _ (users_v1 db)) eqn:Hex; simpl; [now left|].
  right. exists primary. split.
  - intros u Hu He.
    assert (existsb (fun v => String.eqb (usr_email v) (email data))
              (users_v1 db) = true); [|congruence].
    apply existsb_exists. exists u. split; [exact Hu|].
    now apply String.eqb_eq.
  - set (db1 := set_users db _ _).
    destruct (combine (face_images data) (primary :: encodings))
      as [|sample samples]; [reflexivity|].
    now rewrite add_face_samples_undefined.
Qed.

(** Every request keeps the keys of the schema. *)
Lemma serve_keys (request : Request) (now : DATETIME) (db : Database) :
  users_primary_key db /\ email_unique db /\ unique_user_date db ->
  users_primary_key (snd (serve request now db))
  /\ email_unique (snd (serve request now db))
  /\ unique_user_date (snd (serve request now db)).
Proof.
  intros [Hpk [Hemail Hud]].
  destruct request as [recognize img|recognize img|encode data|i]; simpl.
  - destruct (checkin_database recognize img now db) as [->|[u [c ->]]];
      [auto|].
    destruct (recordCheckIn_users u c now db) as [Hu _].
    unfold users_primary_key, email_unique. rewrite Hu.
    repeat split; auto. now apply recordCheckIn_unique.
  - destruct (checkout_database recognize img now db) as [->|[u ->]];
      [auto|].
    repeat split; auto. now apply recordCheckOut_unique.
  - destruct (register_database encode data now db)
      as [->|[primary [Hfresh ->]]]; [auto|].
    unfold users_primary_key, email_unique, unique_user_date.
    cbn [users_v1 attendance_v1 set_users]. rewrite !map_app. simpl.
    repeat split.
    + apply NoDup_snoc; [exact Hpk|].
      intros Hin. apply (next_rowid_fresh (users_seq db)) in Hin. lia.
    + apply NoDup_snoc; [exact Hemail|].
      intros Hin. apply in_map_iff in Hin as [u [He Hin]].
      exact (Hfresh u Hin He).
    + exact Hud.
  - destruct i; simpl; auto.
Qed.

Lemma serve_all_keys (requests : list (Request * DATETIME)) (db : Database) :
  users_primary_key db /\ email_unique db /\ unique_user_date db ->
  users_primary_key (serve_all requests db)
  /\ email_unique (serve_all requests db)
  /\ unique_user_date (serve_all requests db).
Proof.
  revert db. induction requests as [|[request now] requests IH];
    intros db Hdb.
  - exact Hdb.
  - simpl. apply IH. now apply serve_keys.
Qed.

Lemma runMigrations_keys (pragma_foreign_keys : bool) :
  users_primary_key (runMigrations pragma_foreign_keys)
  /\ email_unique (runMigrations pragma_foreign_keys)
  /\ unique_user_date (runMigrations pragma_foreign_keys).
Proof. repeat split; constructor. Qed.

(** Whatever requests the service has served since the migrations, and
    whatever the recognition service answered, the store satisfies the
    keys of the schema: user ids are pairwise different, emails are
    pairwise different, and no user has two attendance rows for one
    day. *)
Theorem served_store_keeps_keys :
  forall (pragma_foreign_keys : bool) (requests : list (Request * DATETIME)),
    users_primary_key (serve_all requests (runMigrations pragma_foreign_keys))
    /\ email_unique (serve_all requests (runMigrations pragma_foreign_keys))
    /\ unique_user_date
         (serve_all requests (runMigrations pragma_foreign_keys)).
Proof.
  intros fk requests.
  apply serve_all_keys, runMigrations_keys.
Qed.

(** In every store the service can reach, the stats count as many
    check-ins today as users present today. *)
Theorem served_stats_agree :
  forall (pragma_foreign_keys : bool) (requests : list (Request * DATETIME))
         (now : DATETIME),
    total_checkins_today
      (getAttendanceStats now
         (serve_all requests (runMigrations pragma_foreign_keys)))
    = present_today
        (getAttendanceStats now
           (serve_all requests (runMigrations pragma_foreign_keys))).
Proof.
  intros fk requests now.
  destruct (serve_all_keys requests (runMigrations fk)
              (runMigrations_keys fk)) as [_ [_ Hud]].
  unfold getAttendanceStats, count_distinct.
  cbn [total_checkins_today present_today].
  rewrite nodup_fixed_point by now apply one_day_distinct_users.
  now rewrite length_map.
Qed.

Lemma user_known_grows (db db' : Database) (added : list UserRow)
    (userId : Z) :
  users_v1 db' = users_v1 db ++ added ->
  user_known db userId = true -> user_known db' userId = true.
Proof.
  unfold user_known. intros -> H. rewrite existsb_app, H. reflexivity.
Qed.

(** With foreign keys enforced, every request keeps the references of
    the attendance rows and of the face samples to the users. *)
Lemma serve_references (request : Request) (now : DATETIME) (db : Database) :
  foreign_keys db = true ->
  attendance_references_users db ->
  samples_reference_users db ->
  foreign_keys (snd (serve request now db)) = true
  /\ attendance_references_users (snd (serve request now db))
  /\ samples_reference_users (snd (serve request now db)).
Proof.
  intros Hfk Hatt Hsmp.
  destruct request as [recognize img|recognize img|encode data|i]; simpl.
  - destruct (checkin_database recognize img now db) as [->|[u [c ->]]];
      [auto|].
    destruct (recordCheckIn_users u c now db) as [Hu [Hf Hs]].
    split; [now rewrite Hf|].
    split; [apply recordCheckIn_references; auto|].
    unfold samples_reference_users, user_known. rewrite Hs, Hu. exact Hsmp.
  - destruct (checkout_database recognize img now db) as [->|[u ->]];
      [auto|].
    split; [exact Hfk|].
    split; [now apply recordCheckOut_references|exact Hsmp].
  - destruct (register_database encode data now db)
      as [->|[primary [_ ->]]]; [auto|].
    set (db1 := set_users db _ _).
    assert (Hu : users_v1 db1 = users_v1 db ++ _) by reflexivity.
    split; [exact Hfk|]. split.
    + intros a Hin. apply (user_known_grows db _ _ _ Hu). now apply Hatt.
    + intros s0 Hin. apply (user_known_grows db _ _ _ Hu). now apply Hsmp.
  - destruct i; simpl; auto.
Qed.

Lemma serve_all_references (requests : list (Request * DATETIME))
    (db : Database) :
  foreign_keys db = true ->
  attendance_references_users db ->
  samples_reference_users db ->
  attendance_references_users (serve_all requests db)
  /\ samples_reference_users (serve_all requests db).
Proof.
  revert db. induction requests as [|[request now] requests IH];
    intros db Hfk Hatt Hsmp.
  - auto.
  - simpl.
    destruct (serve_references request now db Hfk Hatt Hsmp)
      as [Hfk' [Hatt' Hsmp']].
    now apply IH.
Qed.

(** With foreign keys enforced, in every store the service can reach
    each attendance row and each face sample refers to an existing user,
    and the attendance of today lists every ledger row of today exactly
    once: the join with the users drops none and doubles none. *)
Theorem served_attendance_complete :
  forall (requests : list (Request * DATETIME)) (now : DATETIME),
    attendance_references_users (serve_all requests (runMigrations true))
    /\ samples_reference_users (serve_all requests (runMigrations true))
    /\ Permutation
         (map row_of
            (getTodayAttendance now (serve_all requests (runMigrations true))))
         (filter (fun a => att_date a =? date_of now)
            (attendance_v1 (serve_all requests (runMigrations true)))).
Proof.
  intros requests now.
  destruct (serve_all_references requests (runMigrations true))
    as [Hatt Hsmp]; [reflexivity|intros a []|intros s0 []|].
  destruct (serve_all_keys requests (runMigrations true)
              (runMigrations_keys true)) as [Hpk _].
  split; [exact Hatt|]. split; [exact Hsmp|].
  rewrite <- (join_users_rows _ _ Hpk Hatt).
  apply Permutation_map. unfold getTodayAttendance.
  apply Permutation_sym, order_by_perm.
Qed.

Lemma recordCheckIn_identities (userId : Z) (c : Q) (now : DATETIME)
    (db : Database) :
  exists added,
    map attendance_identity
      (attendance_v1 (exec (recordCheckIn userId c now) db))
    = map attendance_identity (attendance_v1 db) ++ added.
Proof.
  destruct (existsb (same_user_date userId (date_of now)) (attendance_v1 db))
    eqn:Hex.
  - exists []. rewrite recordCheckIn_update by assumption. simpl.
    rewrite app_nil_r, map_map. apply map_ext. intros r.
    now destruct (same_user_date userId (date_of now) r).
  - destruct (foreign_keys db && negb (user_known db userId)) eqn:Hfk.
    + exists []. rewrite recordCheckIn_rejected by assumption.
      now rewrite app_nil_r.
    + rewrite recordCheckIn_insert by assumption. simpl.
      rewrite map_app. eexists. reflexivity.
Qed.

Lemma recordCheckOut_identities (userId : Z) (now : DATETIME)
    (db : Database) :
  map attendance_identity (attendance_v1 (exec (recordCheckOut userId now) db))
  = map attendance_identity (attendance_v1 db).
Proof.
  rewrite recordCheckOut_rows, map_map. apply map_ext. intros r.
  now destruct (same_user_date userId (date_of now) r
                && is_null (att_check_out_time r)).
Qed.

Lemma serve_appends (request : Request) (now : DATETIME) (db : Database) :
  exists new_users new_rows new_samples,
    users_v1 (snd (serve request now db)) = users_v1 db ++ new_users
    /\ map attendance_identity (attendance_v1 (snd (serve request now db)))
       = map attendance_identity (attendance_v1 db) ++ new_rows
    /\ face_samples_v1 (snd (serve request now db))
       = face_samples_v1 db ++ new_samples.
Proof.
  destruct request as [recognize img|recognize img|encode data|i]; simpl.
  - destruct (checkin_database recognize img now db) as [->|[u [c ->]]].
    + exists [], [], []. now rewrite !app_nil_r.
    + destruct (recordCheckIn_users u c now db) as [Hu [_ Hs]].
      destruct (recordCheckIn_identities u c now db) as [added Hadded].
      exists [], added, []. now rewrite Hu, Hs, Hadded, !app_nil_r.
  - destruct (checkout_database recognize img now db) as [->|[u ->]].
    + exists [], [], []. now rewrite !app_nil_r.
    + exists [], [], []. rewrite recordCheckOut_identities.
      rewrite !app_nil_r. split; [reflexivity|]. split; reflexivity.
  - destruct (register_database encode data now db)
      as [->|[primary [_ ->]]].
    + exists [], [], []. now rewrite !app_nil_r.
    + eexists _, [], []. cbn [users_v1 attendance_v1 face_samples_v1 set_users].
      split; [reflexivity|]. now rewrite !app_nil_r.
  - exists [], [], []. destruct i; simpl; now rewrite !app_nil_r.
Qed.

(** The store only grows: over any sequence of requests, the user rows
    of the start are still there unchanged and in place, so are the face
    samples, and every attendance row of the start is still there with
    its id, its user and its date. No request, [DELETE /users/:id]
    included, removes or deactivates a user. *)
Theorem served_store_only_grows :
  forall (requests : list (Request * DATETIME)) (db : Database),
    exists new_users new_rows new_samples,
      users_v1 (serve_all requests db) = users_v1 db ++ new_users
      /\ map attendance_identity (attendance_v1 (serve_all requests db))
         = map attendance_identity (attendance_v1 db) ++ new_rows
      /\ face_samples_v1 (serve_all requests db)
         = face_samples_v1 db ++ new_samples.
Proof.
  intros requests. induction requests as [|[request now] requests IH];
    intros db.
  - exists [], [], []. simpl. now rewrite !app_nil_r.
  - simpl.
    destruct (serve_appends request now db) as [u1 [r1 [s1 [Hu1 [Hr1 Hs1]]]]].
    destruct (IH (snd (serve request now db)))
      as [u2 [r2 [s2 [Hu2 [Hr2 Hs2]]]]].
    exists (u1 ++ u2), (r1 ++ r2), (s1 ++ s2).
    rewrite Hu2, Hr2, Hs2, Hu1, Hr1, Hs1, !app_assoc. auto.
Qed.

(** After a delete request the user is still found by its id. *)
Example deleted_user_still_there :
  getUserById 1 (snd (serve (DeleteUser (Some 1)) 100 one_user))
  = getUserById 1 one_user
  /\ getUserById 1 one_user
     = Some (mkUser 1 "Alice" "alice@example.com" "[0,0,0]" 0 (Some 1)).
Proof. split; reflexivity. Qed.

(* ------------------------------------------------------------------ *)
(** ** The views: history of a user, list of users, the pages *)
(* ------------------------------------------------------------------ *)

Lemma date_check_in_desc_spec (r s : AttendanceRecord) :
  date_check_in_desc r s = true <->
  date s < date r \/ (date s = date r /\ check_in_time s <= check_in_time r).
Proof.
  unfold date_check_in_desc, check_in_desc.
  rewrite orb_true_iff, andb_true_iff, Z.ltb_lt, Z.eqb_eq, Z.leb_le.
  reflexivity.
Qed.

Lemma date_check_in_desc_total (r s : AttendanceRecord) :
  date_check_in_desc r s = true \/ date_check_in_desc s r = true.
Proof. rewrite !date_check_in_desc_spec. lia. Qed.

Lemma date_check_in_desc_trans (r s t : AttendanceRecord) :
  date_check_in_desc r s = true -> date_check_in_desc s t = true ->
  date_check_in_desc r t = true.
Proof. rewrite !date_check_in_desc_spec. lia. Qed.

(** The attendance history of a user holds only rows of that user, each
    a row of the ledger that carries the name of the user row with that
    id; it is ordered by date, latest first, and within a date by check-in
    time, latest first; and it has at most [limit] records when [limit] is
    not negative, none at all for limit 0. *)
Theorem getUserAttendance_history :
  forall (userId limit : Z) (db : Database),
    (forall r, In r (getUserAttendance userId limit db) ->
       user_id r = userId
       /\ In (row_of r) (attendance_v1 db)
       /\ exists u, In u (users_v1 db)
                    /\ usr_id u = userId /\ user_name r = usr_name u)
    /\ StronglySorted
         (fun r s => date s < date r
                     \/ (date s = date r
                         /\ check_in_time s <= check_in_time r))
         (getUserAttendance userId limit db)
    /\ (0 <= limit ->
        (List.length (getUserAttendance userId limit db) <= Z.to_nat limit)%nat).
Proof.
  intros userId limit db.
  set (all := order_by date_check_in_desc
                (join_users (fun a => att_user_id a =? userId) db)).
  assert (Hsorted : StronglySorted
            (fun r s => date s < date r
                        \/ (date s = date r
                            /\ check_in_time s <= check_in_time r)) all).
  { apply StronglySorted_impl
      with (R := fun r s => date_check_in_desc r s = true).
    - intros r s. apply date_check_in_desc_spec.
    - apply order_by_sorted.
      + apply date_check_in_desc_total.
      + apply date_check_in_desc_trans. }
  assert (Hin : forall r, In r all ->
            user_id r = userId
            /\ In (row_of r) (attendance_v1 db)
            /\ exists u, In u (users_v1 db)
                         /\ usr_id u = userId /\ user_name r = usr_name u).
  { intros r Hr. unfold all in Hr.
    apply (Permutation_in _ (Permutation_sym (order_by_perm _ _))) in Hr.
    apply join_users_In in Hr as [a [u [Ha [Hc [Hu [Hid ->]]]]]].
    apply Z.eqb_eq in Hc. rewrite row_of_joined. simpl.
    split; [exact Hc|]. split; [exact Ha|].
    exists u. split; [exact Hu|]. split; [congruence|reflexivity]. }
  unfold getUserAttendance. fold all.
  destruct (limit <? 0) eqn:Hneg.
  - split; [exact Hin|]. split; [exact Hsorted|]. apply Z.ltb_lt in Hneg. lia.
  - split; [intros r Hr; apply Hin; now apply In_firstn in Hr|].
    split; [now apply StronglySorted_firstn|].
    intros _. apply firstn_le_length.
Qed.

Lemma getUserAttendance_history_witness :
  (List.length (getUserAttendance 1 30 checked_out) <= Z.to_nat 30)%nat.
Proof.
  destruct (getUserAttendance_history 1 30 checked_out) as [_ [_ Hlimit]].
  apply Hlimit. lia.
Defined.

(** The history of a user over two days, latest day first. *)
Example history_latest_first :
  map (fun r => (date r, check_in_time r, check_out_time r))
    (getUserAttendance 1 30
       (ledger_run [(CheckIn 1 (90 # 1), 100); (CheckOut 1, 200);
                    (CheckIn 1 (80 # 1), 86500)] one_user))
  = [(1, 86500, None); (0, 100, Some 200)].
Proof. reflexivity. Qed.

(** The "last check-in" of the page is a record of today's attendance
    with the latest check-in time of them all, and the page shows none
    exactly when today's attendance is empty; the status panel shows the
    first three records of today's attendance, latest first. *)
Theorem last_checkin_is_latest :
  forall (now : DATETIME) (db : Database),
    match lastCheckin (getAttendanceStats now db) with
    | Some r =>
        In r (getTodayAttendance now db)
        /\ forall s, In s (getTodayAttendance now db) ->
                     check_in_time s <= check_in_time r
    | None => getTodayAttendance now db = []
    end
    /\ recent_activity (getAttendanceStats now db)
       = firstn 3 (getTodayAttendance now db).
Proof.
  intros now db.
  unfold lastCheckin, recent_activity, getAttendanceStats.
  cbn [recent_checkins]. split.
  - pose proof (getTodayAttendance_sorted now db) as Hsorted.
    destruct (getTodayAttendance now db) as [|r rest]; [reflexivity|].
    simpl. split; [now left|].
    apply StronglySorted_inv in Hsorted as [_ Hall].
    rewrite Forall_forall in Hall.
    intros s [<-|Hs]; [lia|now apply Hall].
  - rewrite firstn_firstn. reflexivity.
Qed.

Lemma ascii_compare_refl (a : Ascii.ascii) : Ascii.compare a a = Eq.
Proof. unfold Ascii.compare. apply N.compare_refl. Qed.

Lemma ascii_compare_lt_trans (a b c : Ascii.ascii) :
  Ascii.compare a b = Lt -> Ascii.compare b c = Lt -> Ascii.compare a c = Lt.
Proof.
  unfold Ascii.compare. rewrite !N.compare_lt_iff. apply N.lt_trans.
Qed.

Lemma string_compare_refl (s : string) : String.compare s s = Eq.
Proof.
  induction s as [|a s IH]; simpl; [reflexivity|].
  now rewrite ascii_compare_refl.
Qed.

Lemma string_compare_lt_trans (s1 s2 s3 : string) :
  String.compare s1 s2 = Lt -> String.compare s2 s3 = Lt ->
  String.compare s1 s3 = Lt.
Proof.
  revert s2 s3. induction s1 as [|a s1 IH]; intros [|b s2] [|c s3];
    simpl; try congruence.
  destruct (Ascii.compare a b) eqn:Hab; try discriminate;
    destruct (Ascii.compare b c) eqn:Hbc; try discriminate; intros H12 H23.
  - apply Ascii.compare_eq_iff in Hab. apply Ascii.compare_eq_iff in Hbc.
    subst. rewrite ascii_compare_refl. now apply (IH s2).
  - apply Ascii.compare_eq_iff in Hab. subst. now rewrite Hbc.
  - apply Ascii.compare_eq_iff in Hbc. subst. now rewrite Hab.
  - now rewrite (ascii_compare_lt_trans a b c).
Qed.

Lemma string_leb_trans (s1 s2 s3 : string) :
  String.leb s1 s2 = true -> String.leb s2 s3 = true ->
  String.leb s1 s3 = true.
Proof.
  unfold String.leb.
  destruct (String.compare s1 s2) eqn:H12; try discriminate;
    destruct (String.compare s2 s3) eqn:H23; try discriminate; intros _ _.
  - apply String.compare_eq_iff in H12. apply String.compare_eq_iff in H23.
    subst. now rewrite string_compare_refl.
  - apply String.compare_eq_iff in H12. subst. now rewrite H23.
  - apply String.compare_eq_iff in H23. subst. now rewrite H12.
  - now rewrite (string_compare_lt_trans s1 s2 s3).
Qed.

(** The list of users holds every active user exactly once and no one
    else, in ascending order of name. *)
Theorem getAllUsers_sorted_active :
  forall db : Database,
    Permutation (getAllUsers db)
      (map listing_of (filter is_active (users_v1 db)))
    /\ StronglySorted
         (fun l m => String.leb (lst_name l) (lst_name m) = true)
         (getAllUsers db).
Proof.
  intros db. unfold getAllUsers. split.
  - apply Permutation_map, Permutation_sym, order_by_perm.
  - set (le := fun u v => String.leb (usr_name u) (usr_name v)).
    assert (Hs : StronglySorted (fun u v => le u v = true)
                   (order_by le (filter is_active (users_v1 db)))).
    { apply order_by_sorted; unfold le.
      - intros u v. apply String.leb_total.
      - intros u v w. apply string_leb_trans. }
    induction Hs as [|u l Hs IH Hu]; simpl; constructor; [exact IH|].
    rewrite Forall_forall in *. intros m Hm.
    apply in_map_iff in Hm as [v [<- Hv]]. exact (Hu v Hv).
Qed.

(** Three active users and an inactive one, listed by name. *)
Example users_listed_by_name :
  map lst_name
    (getAllUsers
       (deactivated 2
          (fold_left
             (fun db nm => exec (createUser nm (nm ++ "@example.com") "[]" 0)
                             db)
             ["Zoe"; "Bob"; "Mia"; "Al"]%string (runMigrations true))))
  = ["Al"; "Mia"; "Zoe"]%string.
Proof. reflexivity. Qed.

Lemma Permutation_filter_same {A} (f : A -> bool) (l l' : list A) :
  Permutation l l' -> Permutation (filter f l) (filter f l').
Proof.
  induction 1 as [|x l l' H IH|x y l|l l' l'' H1 IH1 H2 IH2]; simpl.
  - constructor.
  - destruct (f x); [now constructor|exact IH].
  - destruct (f x), (f y); try reflexivity. apply perm_swap.
  - now transitivity (filter f l').
Qed.

Lemma filter_twice {A} (f g : A -> bool) (l : list A) :
  filter f (filter g l) = filter (fun x => f x && g x) l.
Proof.
  induction l as [|x l IH]; simpl; [reflexivity|].
  destruct (g x); simpl.
  - rewrite andb_true_r. destruct (f x); now rewrite IH.
  - now rewrite andb_false_r.
Qed.

Lemma filter_all {A} (f : A -> bool) (l : list A) :
  (forall x, In x l -> f x = true) -> filter f l = l.
Proof.
  induction l as [|x l IH]; simpl; intros H; [reflexivity|].
  rewrite (H x (or_introl eq_refl)). f_equal.
  apply IH. intros y Hy. apply H. now right.
Qed.

Lemma filter_flat_map {A B} (p : B -> bool) (q : A -> bool)
    (g : A -> list B) (l : list A) :
  (forall a b, In b (g a) -> p b = q a) ->
  filter p (flat_map g l) = flat_map g (filter q l).
Proof.
  intros H. induction l as [|a l IH]; simpl; [reflexivity|].
  rewrite filter_app, IH.
  destruct (q a) eqn:Hq; simpl.
  - f_equal. apply filter_all.
    intros b Hb. now rewrite (H a b Hb).
  - rewrite filter_none; [reflexivity|].
    intros b Hb. now rewrite (H a b Hb).
Qed.

(** After a check-in of an enrolled user, today's attendance shows that
    user exactly once: with the name of the user and with the time and the
    confidence of this check-in. *)
Theorem check_in_shows_today :
  forall (db : Database) (user : UserRow) (c : Q) (now : DATETIME),
    users_primary_key db ->
    unique_user_date db ->
    In user (users_v1 db) ->
    exists r,
      filter (fun r => user_id r =? usr_id user)
        (getTodayAttendance now (exec (recordCheckIn (usr_id user) c now) db))
      = [r]
      /\ user_name r = usr_name user
      /\ check_in_time r = now
      /\ confidence_score r = c
      /\ date r = date_of now.
Proof.
  intros db user c now Hpk Hud Huser.
  set (db' := exec (recordCheckIn (usr_id user) c now) db).
  assert (Hknown : user_known db (usr_id user) = true).
  { apply existsb_exists. exists user. split; [exact Huser|apply Z.eqb_refl]. }
  destruct (recordCheckIn_row (usr_id user) c now db Hud (fun _ => Hknown))
    as [row [Hrow [Hin Hconf]]].
  fold db' in Hrow.
  assert (Hrow_user : att_user_id row = usr_id user
                      /\ att_date row = date_of now).
  { assert (Hr : In row (rows_of (usr_id user) (date_of now) db'))
      by (rewrite Hrow; now left).
    apply filter_In in Hr as [_ Hr].
    apply same_user_date_key in Hr. now injection Hr. }
  destruct Hrow_user as [Hru Hrd].
  assert (Husers : users_v1 db' = users_v1 db)
    by apply recordCheckIn_users.
  assert (Hone : filter (fun u => usr_id user =? usr_id u) (users_v1 db)
                 = [user]).
  { destruct (filter_unique_key usr_id
                (fun u => usr_id user =? usr_id u) (usr_id user)
                (users_v1 db)) as [x Hx].
    - intros u. rewrite Z.eqb_eq. split; congruence.
    - exact Hpk.
    - apply existsb_exists. exists user. split; [exact Huser|].
      apply Z.eqb_refl.
    - assert (Hin' : In user (filter (fun u => usr_id user =? usr_id u)
                                (users_v1 db)))
        by (apply filter_In; split; [exact Huser|apply Z.eqb_refl]).
      rewrite Hx in Hin' |- *. destruct Hin' as [->|[]]. reflexivity. }
  assert (Hjoin : filter (fun r => user_id r =? usr_id user)
                    (join_users (fun a => att_date a =? date_of now) db')
                  = [joined row user]).
  { unfold join_users.
    rewrite (filter_flat_map _ (fun a => att_user_id a =? usr_id user)).
    - rewrite filter_twice. unfold rows_of, same_user_date in Hrow.
      rewrite Hrow. simpl. rewrite Husers, Hru, Hone. reflexivity.
    - intros a b Hb. apply in_map_iff in Hb as [u [<- _]]. reflexivity. }
  exists (joined row user).
  split; [|simpl; auto].
  unfold getTodayAttendance.
  apply Permutation_length_1_inv. rewrite <- Hjoin.
  apply Permutation_filter_same, order_by_perm.
Qed.

Lemma check_in_shows_today_witness :
  exists r,
    filter (fun r => user_id r =? 1)
      (getTodayAttendance 100 (exec (recordCheckIn 1 (90 # 1) 100) one_user))
    = [r]
    /\ user_name r = "Alice"%string
    /\ check_in_time r = 100
    /\ confidence_score r = 90 # 1
    /\ date r = date_of 100.
Proof.
  apply (check_in_shows_today one_user
           (mkUser 1 "Alice" "alice@example.com" "[0,0,0]" 0 (Some 1))
           (90 # 1) 100).
  - unfold users_primary_key. simpl. repeat constructor. intros [].
  - unfold unique_user_date. simpl. constructor.
  - left. reflexivity.
Defined.

(** The encoding loop of [/register] yields encodings exactly when the
    service encodes every image successfully; the encodings are then
    those of the images, one per image and in order. One image that fails
    ends the request before anything is stored. *)
Theorem encode_images_all_or_none :
  forall (encode : string -> ProcessOutput EncodeResult)
         (images : list string),
    (forall encodings,
        encode_images encode images = inr encodings ->
        Forall2 (fun img enc =>
                   exists r, encode img = Stdout r
                             /\ enc_success r = true
                             /\ enc_encoding r = enc)
          images encodings)
    /\ ((forall img, In img images ->
           exists r, encode img = Stdout r /\ enc_success r = true) ->
        exists encodings, encode_images encode images = inr encodings)
    /\ (forall response (data : RegistrationData) now db,
          face_images data = images ->
          encode_images encode images = inl response ->
          snd (register encode data now db) = db).
Proof.
  intros encode images. split; [|split].
  - induction images as [|img images IH]; simpl; intros encodings H.
    + injection H as <-. constructor.
    + destruct (encode img) as [| |r] eqn:Hr; try discriminate.
      destruct (enc_success r) eqn:Hs; simpl in H; [|discriminate].
      destruct (encode_images encode images) as [resp|encs];
        [discriminate|].
      injection H as <-. constructor; [|now apply IH].
      exists r. auto.
  - induction images as [|img images IH]; simpl; intros Hall.
    + now exists [].
    + destruct (Hall img (or_introl eq_refl)) as [r [-> Hs]].
      rewrite Hs. simpl.
      destruct IH as [encs ->]; [intros i Hi; apply Hall; now right|].
      now eexists.
  - intros response data now db Himgs Hfail.
    unfold register, handle, bind, query, ret.
    destruct (negb (truthy (name data)) || negb (truthy (email data))
              || (List.length (face_images data) =? 0)%nat);
      simpl; [reflexivity|].
    destruct (getUserByEmail (email data) db); simpl; [reflexivity|].
    rewrite Himgs, Hfail. reflexivity.
Qed.

Lemma encode_images_all_or_none_witness :
  exists encodings,
    encode_images encode_any ["p"; "q"]%string = inr encodings.
Proof.
  destruct (encode_images_all_or_none encode_any ["p"; "q"]%string)
    as [_ [Hall _]].
  apply Hall. intros img _. eexists. split; reflexivity.
Defined.
